(** * Property editor of Proj.pyside: the property model, its undo commands,
    the undo stack and the editor-delegate table.

    Shallow embedding of [src/main.py].  The PySide objects that matter for
    editing state ([PropertyModel], the [QUndoStack] of [MainWindow], the
    row colours and the window background) are collected in one record
    [world]; methods are functions in a state-and-exception monad [M]
    over it, so Python exceptions (IndexError, ValueError, RecursionError,
    OverflowError)
    and the [finally] of [undo_redo_context] are explicit. *)

From Stdlib Require Import ZArith Lia Ascii String.
From stdpp Require Import base list gmap strings.

Open Scope string_scope.
Open Scope list_scope.

(** Python's [!=] and the [dict]/['path'] test of [PropertyModel.data] on
    the dynamically typed property values. *)
Class PyValue (V : Type) := {
  py_ne : V -> V -> bool;
  dict_path : V -> option V
}.

(** QColor, identified by its name. *)
Definition color := string.

Inductive item_role := DisplayRole | EditRole | DecorationRole | BackgroundRole.

Definition role_eqb (a b : item_role) : bool :=
  match a, b with
  | DisplayRole, DisplayRole | EditRole, EditRole
  | DecorationRole, DecorationRole | BackgroundRole, BackgroundRole => true
  | _, _ => false
  end.

(** QModelIndex of the flat two-column model: invalid, or (row, column). *)
Inductive qindex := Invalid | Idx (row col : nat).

Inductive exn := IndexError | ValueError | RecursionError | OverflowError.

Section Model.
Context {V : Type} `{PyValue V}.

(** [@dataclass class PropertyItem]. *)
Record PropertyItem := mkItem { name : string; value : V; type : string }.

(** The three [QUndoCommand] subclasses of the file. *)
Inductive command :=
| PropertyChangeCommand (index : qindex) (old_value new_value : V)
| SetRowColorCommand (color_type : string) (old_color new_color : color)
| SetBackgroundColorCommand (old_color new_color : color).

(** Emitted signals: [dataChanged(top_left, bottom_right)] and
    [afterDataChanged(index, old, new)]. *)
Inductive event :=
| DataChanged (top_left bottom_right : qindex)
| AfterDataChanged (index : qindex) (old_value new_value : V).

(** The mutable state: the fields of [PropertyModel], the window background
    and the [QUndoStack] (its command list and current index).  [events]
    is the signal log, newest first. *)
Record world := mkWorld {
  properties : list PropertyItem;
  is_undo_redo : bool;
  even_row_color : color;
  odd_row_color : color;
  background : color;
  command_list : list command;
  stack_index : nat;
  events : list event
}.

Definition set_properties (ps : list PropertyItem) (w : world) : world :=
  mkWorld ps w.(is_undo_redo) w.(even_row_color) w.(odd_row_color)
    w.(background) w.(command_list) w.(stack_index) w.(events).
Definition set_flag (b : bool) (w : world) : world :=
  mkWorld w.(properties) b w.(even_row_color) w.(odd_row_color)
    w.(background) w.(command_list) w.(stack_index) w.(events).
Definition set_even (c : color) (w : world) : world :=
  mkWorld w.(properties) w.(is_undo_redo) c w.(odd_row_color)
    w.(background) w.(command_list) w.(stack_index) w.(events).
Definition set_odd (c : color) (w : world) : world :=
  mkWorld w.(properties) w.(is_undo_redo) w.(even_row_color) c
    w.(background) w.(command_list) w.(stack_index) w.(events).
Definition set_background (c : color) (w : world) : world :=
  mkWorld w.(properties) w.(is_undo_redo) w.(even_row_color)
    w.(odd_row_color) c w.(command_list) w.(stack_index) w.(events).
Definition set_stack (cs : list command) (i : nat) (w : world) : world :=
  mkWorld w.(properties) w.(is_undo_redo) w.(even_row_color)
    w.(odd_row_color) w.(background) cs i w.(events).
Definition log (e : event) (w : world) : world :=
  mkWorld w.(properties) w.(is_undo_redo) w.(even_row_color)
    w.(odd_row_color) w.(background) w.(command_list) w.(stack_index)
    (e :: w.(events)).

(** ** The state-and-exception monad *)

Inductive result (A : Type) :=
| Ok (a : A) (w : world)
| Exc (e : exn) (w : world).
Arguments Ok {A} a w.
Arguments Exc {A} e w.

Definition M (A : Type) := world -> result A.

Definition ret {A} (a : A) : M A := fun w => Ok a w.
Definition bind {A B} (m : M A) (k : A -> M B) : M B := fun w =>
  match m w with
  | Ok a w' => k a w'
  | Exc e w' => Exc e w'
  end.
Definition raise {A} (e : exn) : M A := fun w => Exc e w.
Definition modify (f : world -> world) : M unit := fun w => Ok tt (f w).
Definition gets {A} (f : world -> A) : M A := fun w => Ok (f w) w.

End Model.

Arguments PropertyItem V : clear implicits.
Arguments command V : clear implicits.
Arguments event V : clear implicits.
Arguments world V : clear implicits.
Arguments result V A : clear implicits.
Arguments M V A : clear implicits.
Arguments Ok {V A} a w.
Arguments Exc {V A} e w.

Notation "x <- m ;; k" := (bind m (fun x => k))
  (at level 100, m at next level, right associativity).
Notation "m ;;; k" := (bind m (fun _ => k))
  (at level 100, right associativity).

Section PropertyModel.
Context {V : Type} `{PyValue V}.

Local Abbreviation world := (world V).
Local Abbreviation M := (M V).
Local Abbreviation command := (command V).

(** [QAbstractItemModel.index(row, column)]: [hasIndex] checks
    [0 <= row < rowCount()] and [0 <= column < columnCount() = 2]. *)
Definition index_of (w : world) (row column : Z) : qindex :=
  if bool_decide (0 <= row < Z.of_nat (length w.(properties)))%Z
     && bool_decide (0 <= column < 2)%Z
  then Idx (Z.to_nat row) (Z.to_nat column) else Invalid.

Definition index (row column : Z) : M qindex := gets (fun w => index_of w row column).

(** [_get_property_item]: [self.properties[index.row()]], IndexError when
    the row is past the end. *)
Definition get_property_item (row : nat) : M (PropertyItem V) := fun w =>
  match w.(properties) !! row with
  | Some it => Ok it w
  | None => Exc IndexError w
  end.

(** [property_item.value = value] on the item at [row] (found just before). *)
Definition store_value (row : nat) (v : V) : M unit :=
  modify (fun w =>
    set_properties
      (match w.(properties) !! row with
       | Some it => <[row := mkItem (name it) v (type it)]> w.(properties)
       | None => w.(properties)
       end) w).

Definition emit (e : event V) : M unit := modify (log e).

(** [PropertyModel.undo_redo_context]:
    [is_undo_redo = True; try: yield finally: is_undo_redo = False]. *)
Definition undo_redo_context {A} (body : M A) : M A := fun w =>
  match body (set_flag true w) with
  | Ok a w1 => Ok a (set_flag false w1)
  | Exc e w1 => Exc e (set_flag false w1)
  end.

(** [setEvenRowColor] / [setOddRowColor]: store the colour and emit
    [dataChanged(index(0, 0), index(rowCount() - 1, columnCount() - 1))]. *)
Definition row_color_changed : M unit :=
  tl <- index 0 0 ;;
  n <- gets (fun w => Z.of_nat (length w.(properties))) ;;
  br <- index (n - 1) 1 ;;
  emit (DataChanged tl br).

Definition setEvenRowColor (c : color) : M unit :=
  modify (set_even c) ;;; row_color_changed.

Definition setOddRowColor (c : color) : M unit :=
  modify (set_odd c) ;;; row_color_changed.

(** [MainWindow.applyBackgroundColor]. *)
Definition applyBackgroundColor (c : color) : M unit := modify (set_background c).

(** The [redo] and [undo] methods of the commands, for a given [setData]. *)
Definition command_redo (setData : qindex -> V -> item_role -> M bool)
    (c : command) : M unit :=
  match c with
  | PropertyChangeCommand i _ new_value =>
      undo_redo_context (setData i new_value EditRole) ;;; ret tt
  | SetRowColorCommand ct _ new_color =>
      if String.eqb ct "even" then setEvenRowColor new_color
      else if String.eqb ct "odd" then setOddRowColor new_color
      else ret tt
  | SetBackgroundColorCommand _ new_color => applyBackgroundColor new_color
  end.

Definition command_undo (setData : qindex -> V -> item_role -> M bool)
    (c : command) : M unit :=
  match c with
  | PropertyChangeCommand i old_value _ =>
      undo_redo_context (setData i old_value EditRole) ;;; ret tt
  | SetRowColorCommand ct old_color _ =>
      if String.eqb ct "even" then setEvenRowColor old_color
      else if String.eqb ct "odd" then setOddRowColor old_color
      else ret tt
  | SetBackgroundColorCommand old_color _ => applyBackgroundColor old_color
  end.

(** A call from C++ into a Python override ([cmd.redo()], [cmd.undo()])
    followed by the rest of the C++ method ([after]): when the override
    raises, PySide keeps the error, the C++ method still runs to its end,
    and the error is raised once control is back in Python. *)
Definition override_then (call : M unit) (after : world -> world) : M unit := fun w =>
  match call w with
  | Ok _ w1 => Ok tt (after w1)
  | Exc e w1 => Exc e (after w1)
  end.

(** [QUndoStack.push(cmd)] (Qt): [cmd.redo()], then drop the commands from
    the current index on, append [cmd], and advance the index.  (No command
    here defines [id()], so there is no merging; the undo limit is 0,
    i.e. unbounded.) *)
Definition undostack_push (setData : qindex -> V -> item_role -> M bool)
    (c : command) : M unit :=
  override_then (command_redo setData c) (fun w =>
    set_stack (take w.(stack_index) w.(command_list) ++ [c])
              (S w.(stack_index)) w).

(** [QUndoStack.undo()] (Qt): nothing when the index is 0; otherwise
    [command_list[index - 1].undo()] and the index goes down by one. *)
Definition undostack_undo (setData : qindex -> V -> item_role -> M bool)
    : M unit := fun w =>
  match w.(stack_index) with
  | O => Ok tt w
  | S k =>
      match w.(command_list) !! k with
      | None => Ok tt w
      | Some c =>
          override_then (command_undo setData c)
            (fun w' => set_stack w'.(command_list) k w') w
      end
  end.

(** [QUndoStack.redo()] (Qt): nothing when the index equals the count;
    otherwise [command_list[index].redo()] and the index goes up by one. *)
Definition undostack_redo (setData : qindex -> V -> item_role -> M bool)
    : M unit := fun w =>
  if Nat.eqb w.(stack_index) (length w.(command_list)) then Ok tt w
  else
    match w.(command_list) !! w.(stack_index) with
    | None => Ok tt w
    | Some c =>
        override_then (command_redo setData c)
          (fun w' => set_stack w'.(command_list) (S w.(stack_index)) w') w
    end.

(** [PropertyModel.setData] with the [afterDataChanged] signal connected to
    [MainWindow.afterDataChanged], which pushes a [PropertyChangeCommand]
    on the undo stack; that push calls the command's [redo], hence
    [setData] again.  [depth] bounds the nesting of these calls and stands
    for Python's recursion limit. *)
Fixpoint setData (depth : nat) (i : qindex) (v : V) (role : item_role)
    : M bool :=
  match depth with
  | O => raise RecursionError
  | S d =>
      match i with
      | Idx row col =>
          if role_eqb role EditRole then
            property_item <- get_property_item row ;;
            if Nat.eqb col 1 then
              let old_value := value property_item in
              if py_ne old_value v then
                store_value row v ;;;
                emit (DataChanged i i) ;;;
                flag <- gets is_undo_redo ;;
                (if negb flag then
                   emit (AfterDataChanged i old_value v) ;;;
                   undostack_push (setData d)
                     (PropertyChangeCommand i old_value v)
                 else ret tt) ;;;
                ret true
              else ret false
            else ret false
          else ret false
      | Invalid => ret false
      end
  end.

(** [sys.getrecursionlimit()]. *)
Definition recursion_limit : nat := 1000.

(** Entry points called from the event loop (a fresh Python stack). *)
Definition model_setData (i : qindex) (v : V) (role : item_role) : M bool :=
  setData recursion_limit i v role.

(** [MainWindow.afterDataChanged]. *)
Definition afterDataChanged (i : qindex) (old_value new_value : V) : M unit :=
  undostack_push model_setData (PropertyChangeCommand i old_value new_value).

Definition undo : M unit := undostack_undo model_setData.
Definition redo : M unit := undostack_redo model_setData.
Definition push (c : command) : M unit := undostack_push model_setData c.

(** The spec's [set(row, col, value)]: an edit of cell (row, col) through
    the view, [model.setData(model.index(row, col), value, Qt.EditRole)]. *)
Definition set (row col : Z) (v : V) : M bool :=
  i <- index row col ;; model_setData i v EditRole.

(** [PropertyModel.data(index, role)] for [DisplayRole] and [EditRole]:
    the name in column 0; in column 1 the value, or [value['path']] for a
    dict holding a ['path'] key. *)
Inductive datum := DNone | DName (s : string) | DValue (v : V).

Definition data_display (i : qindex) : M datum :=
  match i with
  | Invalid => ret DNone
  | Idx row col =>
      property_item <- get_property_item row ;;
      if Nat.eqb col 0 then ret (DName (name property_item))
      else if Nat.eqb col 1 then
        match dict_path (value property_item) with
        | Some p => ret (DValue p)
        | None => ret (DValue (value property_item))
        end
      else ret DNone
  end.

End PropertyModel.

(** ** Editor delegates *)

Inductive delegate :=
| StringDelegate | ColorDelegate | BoolDelegate | IntDelegate | FloatDelegate
| DateDelegate | DateTimeDelegate | TimeDelegate | FileDelegate | FontDelegate
| IconDelegate | CursorDelegate | UrlDelegate | KeySequenceDelegate
| PaletteDelegate | ByteArrayDelegate | PixmapDelegate | StringListDelegate
| Vec2Delegate | Vec2fDelegate | Vec3Delegate | Vec3fDelegate | Vec4Delegate
| Vec4fDelegate.

(** The literal of [self.delegates] in [PropertyEditor.__init__]. *)
Definition delegate_table : list (string * delegate) :=
  [("string", StringDelegate); ("color", ColorDelegate);
   ("bool", BoolDelegate); ("int", IntDelegate); ("float", FloatDelegate);
   ("date", DateDelegate); ("datetime", DateTimeDelegate);
   ("time", TimeDelegate); ("file", FileDelegate); ("font", FontDelegate);
   ("icon", IconDelegate); ("cursor", CursorDelegate); ("url", UrlDelegate);
   ("keysequence", KeySequenceDelegate); ("palette", PaletteDelegate);
   ("ByteArray", ByteArrayDelegate); ("Pixmap", PixmapDelegate);
   ("Stringlist", StringListDelegate); ("vec2", Vec2Delegate);
   ("vec2f", Vec2fDelegate); ("vec3", Vec3Delegate); ("vec3f", Vec3fDelegate);
   ("vec4", Vec4Delegate); ("vec4f", Vec4fDelegate)].

Definition delegates : gmap string delegate := list_to_map delegate_table.

(** The keys of [self.delegates]. *)
Definition registered_tags : list string := delegate_table.*1.

(** [self.delegates.get(property_type, StringDelegate())]; the type is
    [None] when [getPropertyType] gets an invalid index. *)
Definition delegate_for (property_type : option string) : delegate :=
  match property_type with
  | Some t =>
      match delegates !! t with
      | Some d => d
      | None => StringDelegate
      end
  | None => StringDelegate
  end.

(** Python's [str.split(sep)] for a one-character separator. *)
Fixpoint split_on (sep : ascii) (s : string) : list string :=
  match s with
  | EmptyString => [EmptyString]
  | String c rest =>
      if Ascii.eqb c sep then EmptyString :: split_on sep rest
      else
        match split_on sep rest with
        | p :: ps => String c p :: ps
        | [] => [String c EmptyString]
        end
  end.

Section Vec3Delegates.
(** Python's [int(s)] / [float(s)] on one component ([None]: ValueError),
    [QDoubleSpinBox.setValue] followed by [value()], and the Python
    formatting [f"{x}"] of the float it returns. *)
Context {F : Type} (py_conv : string -> option F)
  (spin_value : F -> F) (py_format : F -> string).

(** [x, y, z = map(conv, value.split(","))]: any conversion failure or a
    count other than three raises ValueError. *)
Definition vec3_parse (text : string) : option (F * F * F) :=
  match split_on ","%char text with
  | [a; b; c] =>
      match py_conv a, py_conv b, py_conv c with
      | Some x, Some y, Some z => Some (x, y, z)
      | _, _, _ => None
      end
  | _ => None
  end.

(** [setEditorData]: the three spin boxes after [setValue]. *)
Definition vec3_setEditorData (text : string) : exn + (F * F * F) :=
  match vec3_parse text with
  | Some (x, y, z) => inr (spin_value x, spin_value y, spin_value z)
  | None => inl ValueError
  end.

(** [setModelData]: [f"{x},{y},{z}"] of the spin-box values. *)
Definition vec3_setModelData_text (e : F * F * F) : string :=
  let '(x, y, z) := e in
  String.append (py_format x)
    (String.append "," (String.append (py_format y)
       (String.append "," (py_format z)))).

End Vec3Delegates.

(** ** The tree view: proxy filter and per-row delegates *)

Section View.
Context {V : Type}.
(** [QRegularExpression(pattern)] matching a row's name: the proxy's
    [filterAcceptsRow] with the default key column 0. *)
Context (regex_match : string -> string -> bool).

(** The [PropertyEditor] state the filter touches: the proxy's filter
    pattern and the view's [setItemDelegateForRow] table (proxy row to
    delegate). *)
Record view := mkView {
  filter_pattern : string;
  row_delegates : gmap nat delegate
}.

(** Source rows accepted by the proxy, in order: proxy row [k] maps to the
    [k]-th of them. *)
Definition visible_rows (pattern : string) (ps : list (PropertyItem V)) : list nat :=
  List.filter (fun r => match ps !! r with
                        | Some it => regex_match pattern (name it)
                        | None => false
                        end) (seq 0 (length ps)).

(** Body of the [for row in range(proxy_model.rowCount())] loop of
    [PropertyEditor.setModel]: [mapToSource], [getPropertyType],
    [self.delegates.get(...)], [setItemDelegateForRow(row, delegate)]. *)
Definition row_delegate (vis : list nat) (ps : list (PropertyItem V)) (row : nat)
    : option delegate :=
  match vis !! row with
  | Some src => Some (delegate_for (option_map type (ps !! src)))
  | None => None
  end.

Definition assign_delegate (vis : list nat) (ps : list (PropertyItem V))
    (m : gmap nat delegate) (row : nat) : gmap nat delegate :=
  match row_delegate vis ps row with
  | Some d => <[row := d]> m
  | None => m
  end.

(** [PropertyEditor.setModel(proxy_model)]. *)
Definition setModel (ps : list (PropertyItem V)) (v : view) : view :=
  let vis := visible_rows v.(filter_pattern) ps in
  mkView v.(filter_pattern)
    (fold_left (assign_delegate vis ps) (seq 0 (length vis)) v.(row_delegates)).

(** [PropertyEditor.setFilter(pattern)]: set the proxy's regular
    expression, then [setModel] again (the debugging [print] is left
    out).  The model state is passed through. *)
Definition setFilter (pattern : string) (s : world V * view) : world V * view :=
  let '(w, v) := s in
  (w, setModel w.(properties) (mkView pattern v.(row_delegates))).

End View.

(** ** Drivers and derived notions *)

(** Property values that are Python [str]s. *)
#[export] Instance py_str : PyValue string := {
  py_ne a b := negb (String.eqb a b);
  dict_path _ := None
}.

Section Derived.
Context {V : Type} `{PyValue V}.

Local Abbreviation world := (world V).
Local Abbreviation M := (M V).
Local Abbreviation command := (command V).

Definition upd_value (it : PropertyItem V) (v : V) : PropertyItem V :=
  mkItem (name it) v (type it).

Definition result_world {A} (r : result V A) : world :=
  match r with Ok _ w => w | Exc _ w => w end.

Definition is_data_changed (e : event V) : bool :=
  match e with DataChanged _ _ => true | AfterDataChanged _ _ _ => false end.

(** Triggering an action (Undo, Redo) [n] times. *)
Fixpoint repeat_m (n : nat) (m : M unit) : M unit :=
  match n with
  | O => ret tt
  | S n' => m ;;; repeat_m n' m
  end.

(** A session of cell edits through the view, each [set(row, col, value)]. *)
Fixpoint run_edits (es : list (Z * Z * V)) : M unit :=
  match es with
  | [] => ret tt
  | (r, c, v) :: es' => set r c v ;;; run_edits es'
  end.

(** The effect on the records of one recorded value change. *)
Inductive cmd_step : list (PropertyItem V) -> command -> list (PropertyItem V) -> Prop :=
| step_change ps row it v :
    ps !! row = Some it -> py_ne (value it) v = true ->
    cmd_step ps (PropertyChangeCommand (Idx row 1) (value it) v)
      (<[row := upd_value it v]> ps).

(** [chain ps0 cs ps1]: applying the commands [cs] in order takes the
    records from [ps0] to [ps1]. *)
Inductive chain : list (PropertyItem V) -> list command -> list (PropertyItem V) -> Prop :=
| chain_nil ps : chain ps [] ps
| chain_cons ps0 c ps1 cs ps2 :
    cmd_step ps0 c ps1 -> chain ps1 cs ps2 -> chain ps0 (c :: cs) ps2.

(** What a replay may do to the state: it leaves [is_undo_redo] false, the
    undo stack as it was, and emits only [dataChanged]. *)
Definition replay_frame (w w' : world) : Prop :=
  w'.(is_undo_redo) = false /\
  w'.(command_list) = w.(command_list) /\
  w'.(stack_index) = w.(stack_index) /\
  exists new, w'.(events) = new ++ w.(events) /\
    forallb is_data_changed new = true.

End Derived.

(** The store of the spec's scenario: one string property
    [PropertyItem("Name", "Process 1", "string")], nothing on the undo
    stack. *)
Definition w_process : world string :=
  mkWorld [mkItem "Name" "Process 1" "string"] false "#000000" "#000000"
    "#000000" [] 0 [].

(** ** Main window actions, delegates and views *)

(** ** Main-window colour actions *)

Section MainWindowActions.
Context {V : Type} `{PyValue V}.

(** [MainWindow.setEvenRowColor]: [QColorDialog.getColor()] ([None] for
    the invalid colour of a cancelled dialog); on a valid colour, push a
    [SetRowColorCommand(model, 'even', model.even_row_color, color)]. *)
Definition MainWindow_setEvenRowColor (dialog : option color) : M V unit :=
  match dialog with
  | Some c => old_color <- gets even_row_color ;;
              push (SetRowColorCommand "even" old_color c)
  | None => ret tt
  end.

(** [MainWindow.setOddRowColor]. *)
Definition MainWindow_setOddRowColor (dialog : option color) : M V unit :=
  match dialog with
  | Some c => old_color <- gets odd_row_color ;;
              push (SetRowColorCommand "odd" old_color c)
  | None => ret tt
  end.

(** [MainWindow.setBackgroundColor]: the old colour is the window
    palette's colour, i.e. the [background] of the state. *)
Definition MainWindow_setBackgroundColor (dialog : option color) : M V unit :=
  match dialog with
  | Some c => old_color <- gets background ;;
              push (SetBackgroundColorCommand old_color c)
  | None => ret tt
  end.

(** [PropertyModel.data(index, Qt.BackgroundRole)]: [QColor(value)] for
    the value cell of a ['color'] property, otherwise the even or odd row
    colour by [index.row() % 2]. *)
Inductive background_datum :=
| BgNone
| BgValueColor (v : V)
| BgRowColor (c : color).

Definition data_background (i : qindex) : M V background_datum :=
  match i with
  | Invalid => ret BgNone
  | Idx row col =>
      property_item <- get_property_item row ;;
      if Nat.eqb col 1 && String.eqb (type property_item) "color"
      then ret (BgValueColor (value property_item))
      else w <- gets (fun w => w) ;;
           ret (BgRowColor (if Nat.even row then even_row_color w
                            else odd_row_color w))
  end.

End MainWindowActions.

Arguments background_datum V : clear implicits.

(** ** [ColorDelegate.setModelData] on string-valued colour cells *)

(** [model.data(index, Qt.EditRole) != color] with [color] a [str]:
    [None] differs from every string. *)
Definition datum_ne_str (d : @datum string) (c : string) : bool :=
  match d with
  | DNone => true
  | DName s | DValue s => negb (String.eqb s c)
  end.

(** [color = editor.getColor().name()]; if the cell shows another value,
    [model.setData(index, color, Qt.EditRole)] and then
    [model.dataChanged.emit(index, index, [Qt.BackgroundRole])]. *)
Definition ColorDelegate_setModelData (c : color) (i : qindex) : M string unit :=
  d <- data_display i ;;
  if datum_ne_str d c
  then model_setData i c EditRole ;;; emit (DataChanged i i)
  else ret tt.

(** ** [StringListDelegate] *)

Definition cons_head (c : ascii) (ps : list string) : list string :=
  match ps with
  | p :: ps' => String c p :: ps'
  | [] => [String c EmptyString]
  end.

(** Python's [text.split(', ')]: cut at each leftmost occurrence of the
    two-character separator. *)
Fixpoint split_comma_space (s : string) : list string :=
  match s with
  | EmptyString => [EmptyString]
  | String c rest =>
      if Ascii.eqb c ","%char then
        match rest with
        | String c' rest' =>
            if Ascii.eqb c' " "%char then EmptyString :: split_comma_space rest'
            else cons_head c (split_comma_space rest)
        | EmptyString => cons_head c (split_comma_space rest)
        end
      else cons_head c (split_comma_space rest)
  end.

(** Python's [', '.join(string_list)]. *)
Definition join_comma_space (l : list string) : string := String.concat ", " l.

(** [s] contains the substring [', ']. *)
Fixpoint has_comma_space (s : string) : bool :=
  match s with
  | EmptyString => false
  | String c rest =>
      (Ascii.eqb c ","%char &&
       match rest with String c' _ => Ascii.eqb c' " "%char | EmptyString => false end)
      || has_comma_space rest
  end.

(** [StringListDelegate.setEditorData]: the fresh [QLineEdit] has the
    text [editor_text]; it is replaced by the join when the value is a
    [list] ([Some]), and left alone otherwise. *)
Definition StringListDelegate_setEditorData (editor_text : string)
    (string_list : option (list string)) : string :=
  match string_list with
  | Some l => join_comma_space l
  | None => editor_text
  end.

(** [StringListDelegate.setModelData]: the list stored by [setData]. *)
Definition StringListDelegate_setModelData (text : string) : list string :=
  split_comma_space text.

(** ** Python's [int(str)] and [str(int)] on Latin-1 text *)

(** [str.isspace] on the code points 0..255 (what [int()] strips). *)
Definition py_isspace (c : ascii) : bool :=
  let n := nat_of_ascii c in
  (((9 <=? n) && (n <=? 13)) || ((28 <=? n) && (n <=? 32)) ||
  (n =? 133) || (n =? 160))%nat.

Definition py_isdigit (c : ascii) : bool :=
  let n := nat_of_ascii c in ((48 <=? n) && (n <=? 57))%nat.

Definition digit_value (c : ascii) : Z := Z.of_nat (nat_of_ascii c - 48)%nat.

Fixpoint drop_space (l : list ascii) : list ascii :=
  match l with
  | c :: r => if py_isspace c then drop_space r else l
  | [] => []
  end.

(** Decimal digits, with single underscores allowed between digits. *)
Fixpoint digits_acc (acc : Z) (prev_digit : bool) (l : list ascii) : option Z :=
  match l with
  | [] => if prev_digit then Some acc else None
  | c :: r =>
      if py_isdigit c then digits_acc (10 * acc + digit_value c) true r
      else if Ascii.eqb c "_"%char && prev_digit then digits_acc acc false r
      else None
  end.

(** [int(s)] for a [str] [s] in base 10; [None] is ValueError. *)
Definition py_int (s : string) : option Z :=
  let l := rev (drop_space (rev (drop_space (list_ascii_of_string s)))) in
  match l with
  | "-"%char :: r => option_map Z.opp (digits_acc 0 false r)
  | "+"%char :: r => digits_acc 0 false r
  | _ => digits_acc 0 false l
  end.

Definition digit_char (n : N) : ascii := ascii_of_N (48 + n).

Fixpoint N_digits (fuel : nat) (n : N) : list ascii :=
  match fuel with
  | O => []
  | S f =>
      if (n <? 10)%N then [digit_char n]
      else N_digits f (n / 10)%N ++ [digit_char (n mod 10)%N]
  end.

(** [str(z)] (and [f"{z}"]) for a Python [int]. *)
Definition py_str_int (z : Z) : string :=
  string_of_list_ascii
    match z with
    | Z0 => ["0"%char]
    | Zpos p => N_digits (Pos.size_nat p) (Npos p)
    | Zneg p => "-"%char :: N_digits (Pos.size_nat p) (Npos p)
    end.

(** ** The vector delegates *)

Fixpoint traverse_opt {A B} (f : A -> option B) (l : list A) : option (list B) :=
  match l with
  | [] => Some []
  | x :: r =>
      match f x with
      | Some y => option_map (cons y) (traverse_opt f r)
      | None => None
      end
  end.

(** [x, y, ... = map(conv, value.split(","))] with [n] targets: a failed
    conversion and a wrong count both raise ValueError ([None]). *)
Definition vec_parse {F} (conv : string -> option F) (n : nat) (text : string)
    : option (list F) :=
  let parts := split_on ","%char text in
  if Nat.eqb (length parts) n then traverse_opt conv parts else None.

(** [setModelData]: [f"{x},{y},..."] of the spin-box values. *)
Definition vec_setModelData_text {F} (py_format : F -> string) (xs : list F) : string :=
  String.concat "," (map py_format xs).

(** [QSpinBox.setValue(v)] on a spin box with range [lo..hi]: PySide
    converts [v] to a C [int], raising OverflowError outside
    [-2**31 .. 2**31 - 1]; Qt then clamps the value into the range. *)
Definition qspinbox_setValue_in (lo hi z : Z) : exn + Z :=
  if ((-2147483648 <=? z) && (z <=? 2147483647))%Z
  then inr (Z.max lo (Z.min hi z)) else inl OverflowError.

(** A [QSpinBox()] created without [setRange] has the range [0..99]. *)
Definition qspinbox_setValue (z : Z) : exn + Z := qspinbox_setValue_in 0 99 z.

(** Statements run one after the other: the first that raises stops the
    rest. *)
Fixpoint traverse_sum {A B} (f : A -> exn + B) (l : list A) : exn + list B :=
  match l with
  | [] => inr []
  | x :: r =>
      match f x with
      | inr y => match traverse_sum f r with
                 | inr ys => inr (y :: ys)
                 | inl e => inl e
                 end
      | inl e => inl e
      end
  end.

(** [Vec2Delegate.setEditorData]: [int] components, then
    [xEdit.setValue(x)] and [yEdit.setValue(y)] on two [QSpinBox]es. *)
Definition Vec2Delegate_setEditorData (text : string) : exn + list Z :=
  match vec_parse py_int 2 text with
  | Some xs => traverse_sum qspinbox_setValue xs
  | None => inl ValueError
  end.


(** [Vec3Delegate.setEditorData] and [Vec4Delegate.setEditorData]: [int]
    components ([map(int, ...)]) put into [QDoubleSpinBox]es by
    [setValue], one after the other; [spin_of_int] is [setValue] of an
    [int] on such a spin box (PySide converts it to a C [double], which
    can raise) and the value the box then holds. *)
Definition Vec3Delegate_setEditorData {F} (spin_of_int : Z -> exn + F) (text : string)
    : exn + list F :=
  match vec_parse py_int 3 text with
  | Some xs => traverse_sum spin_of_int xs
  | None => inl ValueError
  end.

Definition Vec4Delegate_setEditorData {F} (spin_of_int : Z -> exn + F) (text : string)
    : exn + list F :=
  match vec_parse py_int 4 text with
  | Some xs => traverse_sum spin_of_int xs
  | None => inl ValueError
  end.

(** ** The delegates that convert the stored text *)

Section ParsingDelegates.
(** Python's [float(s)] on a [str] ([None]: ValueError); the value a
    [QDoubleSpinBox] holds after [setValue] of a float: [float_spin] for
    the box of [FloatDelegate] (range +-1.79769e+308), [vec_spin] for the
    default boxes (range 0 to 99.99) of the vector delegates; and
    [setValue] of an [int] on the latter, [vec_spin_int]. *)
Context {Fl : Type} (py_float : string -> option Fl)
  (float_spin vec_spin : Fl -> Fl) (vec_spin_int : Z -> exn + Fl).

(** [IntDelegate.setEditorData] on a stored [str]:
    [editor.setValue(int(text))], the [QSpinBox] having the range
    [-2147483648 .. 2147483647]. *)
Definition IntDelegate_setEditorData (text : string) : exn + list Z :=
  match py_int text with
  | Some z => traverse_sum (qspinbox_setValue_in (-2147483648) 2147483647) [z]
  | None => inl ValueError
  end.

(** [FloatDelegate.setEditorData] on a stored [str]:
    [editor.setValue(float(text))]. *)
Definition FloatDelegate_setEditorData (text : string) : exn + list Fl :=
  match py_float text with
  | Some x => inr [float_spin x]
  | None => inl ValueError
  end.

(** [Vec2fDelegate.setEditorData] ([n = 2]) and [Vec4fDelegate.setEditorData]
    ([n = 4]): [map(float, value.split(","))] into [n] spin boxes. *)
Definition vecf_setEditorData (n : nat) (text : string) : exn + list Fl :=
  match vec_parse py_float n text with
  | Some xs => inr (map vec_spin xs)
  | None => inl ValueError
  end.

(** What the spin boxes of an editor hold. *)
Inductive spin_values := IntSpins (zs : list Z) | FloatSpins (xs : list Fl).

Definition sum_map_r {A B} (f : A -> B) (r : exn + A) : exn + B :=
  match r with inl e => inl e | inr a => inr (f a) end.

(** [setEditorData] of the delegates of [self.delegates] that convert the
    stored text with [int] or [float]; [None] for the others. *)
Definition parsing_setEditorData (d : delegate) (text : string)
    : option (exn + spin_values) :=
  match d with
  | IntDelegate => Some (sum_map_r IntSpins (IntDelegate_setEditorData text))
  | FloatDelegate => Some (sum_map_r FloatSpins (FloatDelegate_setEditorData text))
  | Vec2Delegate => Some (sum_map_r IntSpins (Vec2Delegate_setEditorData text))
  | Vec2fDelegate => Some (sum_map_r FloatSpins (vecf_setEditorData 2 text))
  | Vec3Delegate =>
      Some (sum_map_r FloatSpins (Vec3Delegate_setEditorData vec_spin_int text))
  | Vec3fDelegate =>
      Some (sum_map_r (fun '(x, y, z) => FloatSpins [x; y; z])
              (vec3_setEditorData py_float vec_spin text))
  | Vec4Delegate =>
      Some (sum_map_r FloatSpins (Vec4Delegate_setEditorData vec_spin_int text))
  | Vec4fDelegate => Some (sum_map_r FloatSpins (vecf_setEditorData 4 text))
  | _ => None
  end.

(** The spec's "the text parses" for each such delegate: the conversion
    succeeds on the text, or, for a vector delegate, the text has as many
    comma-separated parts as the delegate has components and each part
    converts. *)
Definition converts {A} (conv : string -> option A) (s : string) : bool :=
  match conv s with Some _ => true | None => false end.

Definition components_convert {A} (conv : string -> option A) (n : nat)
    (text : string) : bool :=
  let parts := split_on ","%char text in
  Nat.eqb (length parts) n && forallb (converts conv) parts.

Definition text_parses (d : delegate) (text : string) : bool :=
  match d with
  | IntDelegate => converts py_int text
  | FloatDelegate => converts py_float text
  | Vec2Delegate => components_convert py_int 2 text
  | Vec2fDelegate => components_convert py_float 2 text
  | Vec3Delegate => components_convert py_int 3 text
  | Vec3fDelegate => components_convert py_float 3 text
  | Vec4Delegate => components_convert py_int 4 text
  | Vec4fDelegate => components_convert py_float 4 text
  | _ => true
  end.

End ParsingDelegates.

(** [c in s] for a one-character [c]. *)
Fixpoint has_char (c : ascii) (s : string) : bool :=
  match s with
  | EmptyString => false
  | String d rest => Ascii.eqb d c || has_char c rest
  end.

(** ** [PropertyEditor.on_data_changed] and the window cursor *)

(** [QModelIndex.row()]: [-1] for an invalid index. *)
Definition qrow (i : qindex) : Z :=
  match i with Invalid => -1 | Idx r _ => Z.of_nat r end.

(** Python's [range(a, b)]. *)
Definition py_range (a b : Z) : list Z :=
  map (fun k => a + Z.of_nat k)%Z (seq 0 (Z.to_nat (b - a))).

(** [property_name == "Cursor"] on the [data] of a name cell. *)
Definition is_cursor_name {V} (d : @datum V) : bool :=
  match d with DName s => String.eqb s "Cursor" | _ => false end.

Section OnDataChanged.
Context {V : Type} `{PyValue V}.

(** The loop body of [on_data_changed] for each row: the
    [delegateChanged(row, cursor_name)] it emits, if any. *)
Fixpoint on_rows (rows : list Z) : M V (list (Z * @datum V)) :=
  match rows with
  | [] => ret []
  | row :: rs =>
      i <- index row 1 ;;
      i0 <- index row 0 ;;
      property_name <- data_display i0 ;;
      emitted <- (if is_cursor_name property_name
                  then cursor_name <- data_display i ;; ret [(row, cursor_name)]
                  else ret []) ;;
      rest <- on_rows rs ;;
      ret (emitted ++ rest)
  end.

(** [PropertyEditor.on_data_changed(top_left, bottom_right, roles)]:
    the [delegateChanged] emissions, in order. *)
Definition on_data_changed (top_left bottom_right : qindex) : M V (list (Z * @datum V)) :=
  on_rows (py_range (qrow top_left) (qrow bottom_right + 1)).

End OnDataChanged.


Section Corners.
Context {V : Type} `{PyValue V}.

(** [index(0, 0)] and [index(rowCount() - 1, columnCount() - 1)]. *)
Definition table_corners (w : world V) : qindex * qindex :=
  match length w.(properties) with
  | O => (Invalid, Invalid)
  | S n => (Idx 0 0, Idx n 1)
  end.

(** The [delegateChanged] emission of [on_data_changed] for one row. *)
Definition cursor_emission (w : world V) (row : Z) : option (Z * @datum V) :=
  if bool_decide (0 <= row < Z.of_nat (length w.(properties)))%Z then
    match w.(properties) !! Z.to_nat row with
    | Some it => if String.eqb (name it) "Cursor"
                 then Some (row, DValue (default (value it) (dict_path (value it))))
                 else None
    | None => None
    end
  else None.

End Corners.

(** A model with a string, a colour and a cursor property, distinct row
    colours and an empty undo stack. *)
Definition w_sample : world string :=
  mkWorld [mkItem "Name" "Process 1" "string"; mkItem "Color" "#ff0000" "color";
           mkItem "Cursor" "ArrowCursor" "cursor"]
    false "#ffffff" "#eeeeee" "#000000" [] 0 [].

(** ** Facts about the model *)

Section Facts.
Context {V : Type} `{PyValue V}.

Local Abbreviation world := (world V).

(** A replayed [setData] (flag set) changes at most the record, and logs at
    most one [dataChanged]; it never pushes a command. *)
Lemma setData_flag_set d i v role (w : world) :
  w.(is_undo_redo) = true ->
  let w' := result_world (setData d i v role w) in
  w'.(is_undo_redo) = true /\ w'.(command_list) = w.(command_list) /\
  w'.(stack_index) = w.(stack_index) /\
  exists new, w'.(events) = new ++ w.(events) /\ forallb is_data_changed new = true.
Proof.
  intros Hf. destruct d as [|d]; cbn.
  { repeat split; auto. exists []; auto. }
  destruct i as [|row col]; cbn.
  { repeat split; auto. exists []; auto. }
  destruct (role_eqb role EditRole); cbn; [|repeat split; auto; exists []; auto].
  unfold bind, get_property_item.
  destruct (properties w !! row) as [it|] eqn:Hl; cbn;
    [|repeat split; auto; exists []; auto].
  destruct (Nat.eqb col 1); cbn; [|repeat split; auto; exists []; auto].
  destruct (py_ne (value it) v); cbn; [|repeat split; auto; exists []; auto].
  rewrite Hf; cbn. repeat split; auto.
  exists [DataChanged (Idx row col) (Idx row col)]; auto.
Qed.

Lemma index_of_valid (w : world) row col :
  row < length w.(properties) -> col < 2 ->
  index_of w (Z.of_nat row) (Z.of_nat col) = Idx row col.
Proof.
  intros Hr Hc. unfold index_of.
  rewrite !bool_decide_true by lia. cbn. by rewrite !Nat2Z.id.
Qed.

Lemma index_of_value_column (w : world) row :
  row < length w.(properties) -> index_of w (Z.of_nat row) 1 = Idx row 1.
Proof. intros Hr. exact (index_of_valid w row 1 Hr ltac:(lia)). Qed.

Lemma lookup_upd_value (ps : list (PropertyItem V)) row it v :
  ps !! row = Some it ->
  <[row := upd_value it v]> ps !! row = Some (upd_value it v).
Proof.
  intros Hl. apply list_lookup_insert_eq. by eapply lookup_lt_Some.
Qed.

(** A replayed write of [v] into cell (row, 1) under [undo_redo_context]. *)
Lemma replay_set d (w : world) row it v :
  w.(properties) !! row = Some it ->
  undo_redo_context (setData (S d) (Idx row 1) v EditRole) w =
  if py_ne (value it) v
  then Ok true (set_flag false (log (DataChanged (Idx row 1) (Idx row 1))
         (set_properties (<[row := upd_value it v]> w.(properties))
            (set_flag true w))))
  else Ok false (set_flag false (set_flag true w)).
Proof.
  intros Hl. unfold undo_redo_context. cbn -[py_ne]. unfold bind, get_property_item, store_value, modify, emit, gets.
  cbn -[py_ne]. rewrite Hl. cbn -[py_ne].
  destruct (py_ne (value it) v); cbn -[py_ne]; [|reflexivity].
  rewrite Hl. reflexivity.
Qed.

Lemma setData_edit d (w : world) row it v :
  w.(is_undo_redo) = false -> w.(properties) !! row = Some it ->
  py_ne (value it) v = true ->
  setData (S d) (Idx row 1) v EditRole w =
  (undostack_push (setData d) (PropertyChangeCommand (Idx row 1) (value it) v)
   ;;; ret true)
    (log (AfterDataChanged (Idx row 1) (value it) v)
       (log (DataChanged (Idx row 1) (Idx row 1))
          (set_properties (<[row := upd_value it v]> w.(properties)) w))).
Proof.
  intros Hf Hl Hne. cbn -[py_ne undostack_push].
  unfold bind, get_property_item, store_value, modify, emit, gets.
  cbn -[py_ne undostack_push]. rewrite Hl, Hne. cbn -[py_ne undostack_push].
  rewrite Hl, Hf. reflexivity.
Qed.

(** An interactive edit of cell (row, 1) that changes the value: the record
    is updated, [dataChanged] and [afterDataChanged] are emitted, and the
    slot pushes the command, whose [redo] writes [v] once more under the
    flag. *)
Lemma set_edit (w : world) row it v :
  w.(is_undo_redo) = false -> w.(properties) !! row = Some it ->
  py_ne (value it) v = true ->
  let c := PropertyChangeCommand (Idx row 1) (value it) v in
  let w1 := log (AfterDataChanged (Idx row 1) (value it) v)
              (log (DataChanged (Idx row 1) (Idx row 1))
                 (set_properties (<[row := upd_value it v]> w.(properties)) w)) in
  set (Z.of_nat row) 1 v w =
  Ok true
    (set_stack (take w.(stack_index) w.(command_list) ++ [c]) (S w.(stack_index))
      (set_flag false
        (if py_ne v v
         then log (DataChanged (Idx row 1) (Idx row 1))
                (set_properties
                   (<[row := upd_value (upd_value it v) v]> w1.(properties))
                   (set_flag true w1))
         else set_flag true w1))).
Proof.
  intros Hf Hl Hne c w1.
  assert (Hlt : row < length w.(properties)) by (by eapply lookup_lt_Some).
  unfold set, bind, index, gets. rewrite index_of_value_column by lia.
  unfold model_setData, recursion_limit.
  rewrite (setData_edit 999 w row it v Hf Hl Hne). fold w1.
  unfold bind at 1. unfold undostack_push, override_then, command_redo, bind.
  rewrite (replay_set _ w1 row (upd_value it v) v).
  2:{ unfold w1. cbn. by apply lookup_upd_value. }
  cbn -[py_ne]. destruct (py_ne v v); reflexivity.
Qed.

Lemma upd_value_same (it : PropertyItem V) : upd_value it (value it) = it.
Proof. by destruct it. Qed.

Lemma upd_value_twice (it : PropertyItem V) v u :
  upd_value (upd_value it v) u = upd_value it u.
Proof. reflexivity. Qed.

(** [Undo] on a value change whose row holds [it]. *)
Lemma undo_change (w : world) k row it o n :
  w.(stack_index) = S k ->
  w.(command_list) !! k = Some (PropertyChangeCommand (Idx row 1) o n) ->
  w.(properties) !! row = Some it ->
  undo w =
  Ok tt (set_stack w.(command_list) k
    (set_flag false
      (if py_ne (value it) o
       then log (DataChanged (Idx row 1) (Idx row 1))
              (set_properties (<[row := upd_value it o]> w.(properties))
                 (set_flag true w))
       else set_flag true w))).
Proof.
  intros Hi Hk Hl. unfold undo, undostack_undo. rewrite Hi, Hk.
  unfold override_then, command_undo, model_setData, recursion_limit, bind. cbv beta.
  rewrite (replay_set _ w row it o Hl).
  destruct (py_ne (value it) o); reflexivity.
Qed.

(** [Redo] on a value change whose row holds [it]. *)
Lemma redo_change (w : world) row it o n :
  w.(stack_index) < length w.(command_list) ->
  w.(command_list) !! w.(stack_index) = Some (PropertyChangeCommand (Idx row 1) o n) ->
  w.(properties) !! row = Some it ->
  redo w =
  Ok tt (set_stack w.(command_list) (S w.(stack_index))
    (set_flag false
      (if py_ne (value it) n
       then log (DataChanged (Idx row 1) (Idx row 1))
              (set_properties (<[row := upd_value it n]> w.(properties))
                 (set_flag true w))
       else set_flag true w))).
Proof.
  intros Hi Hk Hl. unfold redo, undostack_redo.
  replace (Nat.eqb (stack_index w) (length (command_list w))) with false
    by (symmetry; apply Nat.eqb_neq; lia).
  rewrite Hk.
  unfold override_then, command_redo, model_setData, recursion_limit, bind. cbv beta.
  rewrite (replay_set _ w row it n Hl).
  destruct (py_ne (value it) n); reflexivity.
Qed.

Lemma chain_snoc ps0 cs ps1 c ps2 :
  chain ps0 cs ps1 -> cmd_step ps1 c ps2 -> chain ps0 (cs ++ [c]) ps2.
Proof.
  induction 1; intros Hs; cbn.
  - econstructor; [exact Hs | constructor].
  - econstructor; eauto.
Qed.

Lemma chain_snoc_inv ps0 cs c ps2 :
  chain ps0 (cs ++ [c]) ps2 -> exists ps1, chain ps0 cs ps1 /\ cmd_step ps1 c ps2.
Proof.
  revert ps0. induction cs as [|c' cs IH]; intros ps0 Hc; cbn in Hc.
  - inversion Hc as [|? ? ? ? ? Hst Hrest]; subst.
    inversion Hrest; subst. eauto using chain_nil.
  - inversion Hc as [|? ? ? ? ? Hst0 Hrest]; subst.
    destruct (IH _ Hrest) as (ps1 & Hch & Hst).
    exists ps1. split; [econstructor; eauto | exact Hst].
Qed.

Lemma setData_invalid d v role (w : world) :
  setData (S d) Invalid v role w = Ok false w.
Proof. reflexivity. Qed.

Lemma setData_other_column d (w : world) row col v :
  row < length w.(properties) -> col <> 1 ->
  setData (S d) (Idx row col) v EditRole w = Ok false w.
Proof.
  intros Hr Hc. destruct (lookup_lt_is_Some_2 _ _ Hr) as [it Hl].
  cbn -[py_ne]. unfold bind, get_property_item. rewrite Hl.
  apply Nat.eqb_neq in Hc. rewrite Hc. reflexivity.
Qed.

Lemma setData_same_value d (w : world) row it v :
  w.(properties) !! row = Some it -> py_ne (value it) v = false ->
  setData (S d) (Idx row 1) v EditRole w = Ok false w.
Proof.
  intros Hl Hne. cbn -[py_ne]. unfold bind, get_property_item. rewrite Hl.
  cbn -[py_ne]. rewrite Hne. reflexivity.
Qed.

(** [index(row, col)] outside the table is the invalid index. *)
Lemma index_of_out (w : world) row col :
  (row < 0 \/ Z.of_nat (length w.(properties)) <= row)%Z ->
  index_of w row col = Invalid.
Proof.
  intros Hr. unfold index_of. rewrite bool_decide_false by lia. reflexivity.
Qed.

(** Every [set] either does nothing at all or is a changing edit of a
    value cell. *)
Lemma set_cases (w : world) r c v :
  set r c v w = Ok false w \/
  exists row it, r = Z.of_nat row /\ c = 1%Z /\
    w.(properties) !! row = Some it /\ py_ne (value it) v = true.
Proof.
  unfold set, bind, index, gets, model_setData, recursion_limit.
  destruct (decide (0 <= r < Z.of_nat (length w.(properties)))%Z) as [Hr|Hr];
    [|left; rewrite index_of_out by lia; apply setData_invalid].
  destruct (decide (0 <= c < 2)%Z) as [Hc|Hc].
  2:{ left. unfold index_of. rewrite (bool_decide_false (0 <= c < 2)%Z) by lia.
      rewrite andb_false_r. apply setData_invalid. }
  unfold index_of. rewrite !bool_decide_true by lia. cbn [andb].
  assert (Hlt : Z.to_nat r < length w.(properties)) by lia.
  destruct (decide (c = 1%Z)) as [->|Hc1].
  2:{ left. apply setData_other_column; [exact Hlt | lia]. }
  destruct (lookup_lt_is_Some_2 _ _ Hlt) as [it Hl].
  destruct (py_ne (value it) v) eqn:Hne.
  - right. exists (Z.to_nat r), it. repeat split; auto. lia.
  - left. apply (setData_same_value _ w _ it); auto.
Qed.

Lemma set_edit_fields (w : world) row it v :
  w.(is_undo_redo) = false -> w.(properties) !! row = Some it ->
  py_ne (value it) v = true ->
  exists w', set (Z.of_nat row) 1 v w = Ok true w' /\
    w'.(properties) = <[row := upd_value it v]> w.(properties) /\
    w'.(command_list) = take w.(stack_index) w.(command_list)
                        ++ [PropertyChangeCommand (Idx row 1) (value it) v] /\
    w'.(stack_index) = S w.(stack_index) /\
    w'.(is_undo_redo) = false.
Proof.
  intros Hf Hl Hne. rewrite (set_edit w row it v Hf Hl Hne).
  eexists. split; [reflexivity|].
  destruct (py_ne v v); cbn; rewrite ?list_insert_insert_eq; auto.
Qed.

(** A session of edits from a flag-clear state pushes a list [cs] of value
    changes after the current index, and [cs] takes the old records to the
    new ones. *)
Lemma run_edits_chain es (w : world) :
  w.(is_undo_redo) = false -> w.(stack_index) <= length w.(command_list) ->
  exists w' cs post, run_edits es w = Ok tt w' /\
    w'.(command_list) = take w.(stack_index) w.(command_list) ++ cs ++ post /\
    w'.(stack_index) = w.(stack_index) + length cs /\
    chain w.(properties) cs w'.(properties) /\
    w'.(is_undo_redo) = false.
Proof.
  revert w. induction es as [|[[r c] v] es IH]; intros w Hf Hi.
  - exists w, [], (drop w.(stack_index) w.(command_list)).
    rewrite app_nil_l, take_drop.
    repeat split; auto using chain_nil.
  - cbn [run_edits]. unfold bind at 1.
    destruct (set_cases w r c v) as [Hs | (row & it & -> & -> & Hl & Hne)].
    + rewrite Hs. exact (IH w Hf Hi).
    + destruct (set_edit_fields w row it v Hf Hl Hne)
        as (w1 & Hs & Hp1 & Hc1 & Hi1 & Hf1).
      rewrite Hs.
      assert (Hlen : length (take (stack_index w) (command_list w)) = stack_index w)
        by (rewrite length_take; lia).
      destruct (IH w1 Hf1) as (w' & cs & post & Hr & Hc' & Hi' & Hch & Hf').
      { rewrite Hc1, Hi1, length_app, Hlen. cbn. lia. }
      exists w', (PropertyChangeCommand (Idx row 1) (value it) v :: cs), post.
      rewrite Hc1, Hi1 in Hc'. rewrite Hi1 in Hi'.
      rewrite (take_ge (take (stack_index w) (command_list w) ++ _)) in Hc'
        by (rewrite length_app, Hlen; cbn; lia).
      rewrite <- app_assoc in Hc'. cbn in Hc', Hi'.
      repeat split; auto; [cbn; lia|].
      econstructor; [constructor; eauto|]. by rewrite <- Hp1.
Qed.

Lemma redo_all ps0 cs ps2 :
  chain ps0 cs ps2 -> forall (w : world) pre post,
  w.(properties) = ps0 ->
  w.(command_list) = pre ++ cs ++ post ->
  w.(stack_index) = length pre ->
  w.(is_undo_redo) = false ->
  exists w', repeat_m (length cs) redo w = Ok tt w' /\
    w'.(properties) = ps2 /\ w'.(command_list) = w.(command_list) /\
    w'.(stack_index) = length pre + length cs /\ w'.(is_undo_redo) = false.
Proof.
  induction 1 as [ps|ps0 c ps1 cs ps2 Hst Hch IH];
    intros w pre post Hp Hc Hi Hf.
  - exists w. cbn. repeat split; auto. lia.
  - inversion Hst as [ps row it v Hl Hne Eps Ec Eps1]; subst.
    cbn [length repeat_m]. unfold bind at 1.
    assert (Hk : w.(command_list) !! w.(stack_index) =
                 Some (PropertyChangeCommand (Idx row 1) (value it) v)).
    { rewrite Hc, Hi. by apply list_lookup_middle. }
    rewrite (redo_change w row it (value it) v) by
      (auto; rewrite Hc, Hi, !length_app; cbn; lia).
    rewrite Hne.
    destruct (IH (set_stack w.(command_list) (S w.(stack_index))
        (set_flag false
           (log (DataChanged (Idx row 1) (Idx row 1))
              (set_properties (<[row:=upd_value it v]> (properties w))
                 (set_flag true w))))) (pre ++ [PropertyChangeCommand (Idx row 1) (value it) v]) post)
      as (w' & Hr & Hp' & Hc' & Hi' & Hf'); cbn.
    + reflexivity.
    + by rewrite Hc, <- app_assoc.
    + rewrite Hi, length_app. cbn. lia.
    + reflexivity.
    + exists w'. rewrite Hr. cbn in Hc', Hi'. rewrite length_app in Hi'. cbn in Hi'.
      repeat split; auto. lia.
Qed.

Section Symmetric.
(** Python's [!=] is symmetric on the property values. *)
Hypothesis py_ne_sym : forall a b : V, py_ne a b = py_ne b a.

Lemma undo_all cs : forall ps0 (w : world) pre post,
  chain ps0 cs w.(properties) ->
  w.(command_list) = pre ++ cs ++ post ->
  w.(stack_index) = length pre + length cs ->
  w.(is_undo_redo) = false ->
  exists w', repeat_m (length cs) undo w = Ok tt w' /\
    w'.(properties) = ps0 /\ w'.(command_list) = w.(command_list) /\
    w'.(stack_index) = length pre /\ w'.(is_undo_redo) = false.
Proof.
  induction cs as [|c cs IH] using rev_ind; intros ps0 w pre post Hch Hc Hi Hf.
  - inversion Hch; subst. exists w. cbn in *. repeat split; auto. lia.
  - destruct (chain_snoc_inv _ _ _ _ Hch) as (ps1 & Hch1 & Hst).
    inversion Hst as [ps row it v Hl Hne Eps Ec Eps2]; subst.
    rewrite length_app, Nat.add_comm. cbn [length Nat.add repeat_m].
    assert (Hk : w.(command_list) !! (length pre + length cs) =
                 Some (PropertyChangeCommand (Idx row 1) (value it) v)).
    { rewrite Hc, <- (app_assoc cs), app_assoc.
      apply list_lookup_middle. by rewrite length_app. }
    assert (Hw : w.(properties) !! row = Some (upd_value it v)).
    { rewrite <- Eps2. by apply lookup_upd_value. }
    unfold bind at 1.
    rewrite (undo_change w (length pre + length cs) row (upd_value it v)
               (value it) v) by (auto; rewrite Hi, length_app; cbn; lia).
    cbn [value upd_value]. rewrite py_ne_sym, Hne.
    set (w1 := set_stack _ _ _).
    destruct (IH ps0 w1 pre ([PropertyChangeCommand (Idx row 1) (value it) v] ++ post))
      as (w' & Hr & Hp & Hc' & Hi' & Hf'); cbn.
    + rewrite <- Eps2, list_insert_insert_eq, upd_value_twice, upd_value_same.
      rewrite list_insert_id by exact Hl. exact Hch1.
    + by rewrite Hc, <- app_assoc.
    + reflexivity.
    + reflexivity.
    + exists w'. repeat split; auto.
Qed.

End Symmetric.

(** A replayed value write, [with undo_redo_context(): setData(...)]. *)
Lemma replay_under_flag (w : world) i :
  forall v,
    (undo_redo_context (model_setData i v EditRole) ;;; ret tt) w =
      match model_setData i v EditRole (set_flag true w) with
      | Ok _ w1 => Ok tt (set_flag false w1)
      | Exc e w1 => Exc e (set_flag false w1)
      end /\
    replay_frame w (result_world
      ((undo_redo_context (model_setData i v EditRole) ;;; ret tt) w)).
Proof.
  intros v. unfold bind, undo_redo_context.
  destruct (setData_flag_set recursion_limit i v EditRole (set_flag true w)
              eq_refl) as (_ & Hc & Hi & new & He & Hd).
  unfold model_setData.
  destruct (setData recursion_limit i v EditRole (set_flag true w)) as [a w1|e w1];
    cbn in *; split; auto; repeat split; auto; exists new; auto.
Qed.

(** The [redo] of any command leaves the undo stack as it is. *)
Lemma command_redo_stack (w : world) c :
  let w' := result_world (command_redo model_setData c w) in
  w'.(command_list) = w.(command_list) /\ w'.(stack_index) = w.(stack_index).
Proof.
  destruct c as [i o n|ct o n|o n]; cbn [command_redo].
  - destruct (replay_under_flag w i n) as [_ (_ & Hc & Hi & _)]. auto.
  - destruct (String.eqb ct "even"); [|destruct (String.eqb ct "odd")];
      cbn; auto.
  - cbn. auto.
Qed.

End Facts.

(** ** Facts about the view *)

Section ViewFacts.
Context {V : Type} (regex_match : string -> string -> bool).

Lemma fold_assign_lookup vis (ps : list (PropertyItem V)) l m k :
  fold_left (assign_delegate vis ps) l m !! k =
  match row_delegate vis ps k with
  | Some d => if bool_decide (k ∈ l) then Some d else m !! k
  | None => m !! k
  end.
Proof.
  revert m. induction l as [|r l IH]; intros m; cbn [fold_left].
  - destruct (row_delegate vis ps k); [rewrite bool_decide_false by set_solver|]; done.
  - rewrite IH. unfold assign_delegate.
    destruct (decide (k = r)) as [->|Hne].
    + destruct (row_delegate vis ps r) as [d|] eqn:Hd; [|done].
      rewrite (bool_decide_true (r ∈ r :: l)) by set_solver.
      case_bool_decide; [done|]. by rewrite lookup_insert_eq.
    + destruct (row_delegate vis ps k) as [d|] eqn:Hd.
      * replace (bool_decide (k ∈ r :: l)) with (bool_decide (k ∈ l))
          by (apply bool_decide_ext; set_solver).
        destruct (row_delegate vis ps r); rewrite ?lookup_insert_ne by congruence;
          done.
      * destruct (row_delegate vis ps r); rewrite ?lookup_insert_ne by congruence;
          done.
Qed.

Lemma setModel_idempotent (ps : list (PropertyItem V)) v :
  setModel regex_match ps (setModel regex_match ps v) = setModel regex_match ps v.
Proof.
  unfold setModel. cbn [filter_pattern row_delegates]. f_equal.
  apply map_eq. intros k. rewrite !fold_assign_lookup.
  destruct (row_delegate _ ps k); [|done]. by case_bool_decide.
Qed.

Lemma setModel_lookup (ps : list (PropertyItem V)) v row src :
  visible_rows regex_match v.(filter_pattern) ps !! row = Some src ->
  (setModel regex_match ps v).(row_delegates) !! row =
  Some (delegate_for (option_map type (ps !! src))).
Proof.
  intros Hv. unfold setModel. cbn [row_delegates].
  rewrite fold_assign_lookup. unfold row_delegate at 1. rewrite Hv.
  rewrite bool_decide_true; [done|].
  apply elem_of_seq. split; [lia|]. apply lookup_lt_Some in Hv. lia.
Qed.

End ViewFacts.

(** ** The claims *)

(** C1. Undo/redo round trip: after any session of edits pushing the
    commands [cs], Undo [length cs] times restores the records and the
    index, then Redo [length cs] times restores the post-edit records and
    index; and the spec's scenario: editing "Process 1" to "Process 2"
    gives one command with index 1, Undo shows "Process 1" with index 0,
    Redo shows "Process 2" with index 1. *)
Theorem undo_redo_round_trip :
  (forall (V : Type) (HV : PyValue V),
     (forall a b : V, py_ne a b = py_ne b a) ->
     forall (es : list (Z * Z * V)) (w0 : world V),
     w0.(is_undo_redo) = false ->
     w0.(stack_index) <= length w0.(command_list) ->
     exists w1 cs post, run_edits es w0 = Ok tt w1 /\
       w1.(command_list) = take w0.(stack_index) w0.(command_list) ++ cs ++ post /\
       w1.(stack_index) = w0.(stack_index) + length cs /\
       exists w2, repeat_m (length cs) undo w1 = Ok tt w2 /\
         w2.(properties) = w0.(properties) /\
         w2.(stack_index) = w0.(stack_index) /\
         exists w3, repeat_m (length cs) redo w2 = Ok tt w3 /\
           w3.(properties) = w1.(properties) /\
           w3.(stack_index) = w1.(stack_index)) /\
  match set 0 1 "Process 2" w_process with
  | Ok true w1 =>
      length w1.(command_list) = 1 /\ w1.(stack_index) = 1 /\
      data_display (Idx 0 1) w1 = Ok (DValue "Process 2") w1 /\
      match undo w1 with
      | Ok _ w2 =>
          data_display (Idx 0 1) w2 = Ok (DValue "Process 1") w2 /\
          w2.(stack_index) = 0 /\
          match redo w2 with
          | Ok _ w3 =>
              data_display (Idx 0 1) w3 = Ok (DValue "Process 2") w3 /\
              w3.(stack_index) = 1
          | Exc _ _ => False
          end
      | Exc _ _ => False
      end
  | _ => False
  end.
Proof.
  split.
  - intros V HV Hsym es w0 Hf Hi.
    destruct (run_edits_chain es w0 Hf Hi)
      as (w1 & cs & post & Hr & Hc & Hi1 & Hch & Hf1).
    exists w1, cs, post. repeat split; auto.
    assert (Hlen : length (take (stack_index w0) (command_list w0)) = stack_index w0)
      by (rewrite length_take; lia).
    destruct (undo_all Hsym cs (properties w0) w1 _ post Hch Hc
                ltac:(rewrite Hlen; exact Hi1) Hf1)
      as (w2 & Hu & Hp2 & Hc2 & Hi2 & Hf2).
    exists w2. rewrite Hlen in Hi2. repeat split; auto.
    destruct (redo_all _ _ _ Hch w2 _ post Hp2 ltac:(by rewrite Hc2)
                ltac:(by rewrite Hi2, Hlen) Hf2)
      as (w3 & Hr3 & Hp3 & Hc3 & Hi3 & Hf3).
    exists w3. repeat split; auto. rewrite Hi3, Hlen. lia.
  - vm_compute. repeat split; reflexivity.
Qed.

Lemma undo_redo_round_trip_witness :
  let es := [(0%Z, 1%Z, "Process 2"); (0%Z, 1%Z, "Process 3")] in
  (forall a b : string, py_ne a b = py_ne b a) /\
  w_process.(is_undo_redo) = false /\
  w_process.(stack_index) <= length w_process.(command_list) /\
  exists w1 cs post, run_edits es w_process = Ok tt w1 /\
    w1.(command_list) =
      take w_process.(stack_index) w_process.(command_list) ++ cs ++ post /\
    w1.(stack_index) = w_process.(stack_index) + length cs /\
    exists w2, repeat_m (length cs) undo w1 = Ok tt w2 /\
      w2.(properties) = w_process.(properties) /\
      w2.(stack_index) = w_process.(stack_index) /\
      exists w3, repeat_m (length cs) redo w2 = Ok tt w3 /\
        w3.(properties) = w1.(properties) /\
        w3.(stack_index) = w1.(stack_index).
Proof.
  intros es.
  assert (Hsym : forall a b : string, py_ne a b = py_ne b a)
    by (intros a b; simpl; rewrite String.eqb_sym; reflexivity).
  split; [exact Hsym|]. split; [reflexivity|]. split; [simpl; lia|].
  apply (proj1 undo_redo_round_trip string py_str Hsym es w_process);
    [reflexivity | simpl; lia].
Defined.

(** C3. The [undo] and [redo] of a [PropertyChangeCommand] call [setData]
    on the model with [is_undo_redo] set; whatever that call does,
    returning or raising, [is_undo_redo] is false afterwards, the undo
    stack is untouched and the only signals emitted are [dataChanged]
    ones: no [afterDataChanged], hence no new command. *)
Theorem replay_suppresses_recording :
  forall (V : Type) (HV : PyValue V) (w : world V) (i : qindex) (o n : V),
  command_undo model_setData (PropertyChangeCommand i o n) w =
    match model_setData i o EditRole (set_flag true w) with
    | Ok _ w1 => Ok tt (set_flag false w1)
    | Exc e w1 => Exc e (set_flag false w1)
    end /\
  replay_frame w (result_world (command_undo model_setData (PropertyChangeCommand i o n) w)) /\
  command_redo model_setData (PropertyChangeCommand i o n) w =
    match model_setData i n EditRole (set_flag true w) with
    | Ok _ w1 => Ok tt (set_flag false w1)
    | Exc e w1 => Exc e (set_flag false w1)
    end /\
  replay_frame w (result_world (command_redo model_setData (PropertyChangeCommand i o n) w)).
Proof.
  intros V HV w i o n.
  pose proof (replay_under_flag w i) as Hrep.
  destruct (Hrep o) as [Hu1 Hu2]. destruct (Hrep n) as [Hr1 Hr2].
  cbn [command_undo command_redo]. auto.
Qed.

(** C2. With the index below the number of commands, [push(cmd)] runs
    [cmd.redo()], drops the commands from the index on, appends [cmd] and
    advances the index; when [cmd.redo()] raises, the stack is updated in
    the same way before the error comes out.  E.g. edit A, edit B, Undo,
    edit C leaves [A; C] with the index at the end, and Redo then does
    nothing. *)
Theorem push_discards_redo_tail :
  (forall (V : Type) (HV : PyValue V) (w : world V) (c : command V),
     w.(stack_index) < length w.(command_list) ->
     let w1 := result_world (command_redo model_setData c w) in
     let pushed := set_stack (take w.(stack_index) w.(command_list) ++ [c])
                     (S w.(stack_index)) w1 in
     w1.(command_list) = w.(command_list) /\
     w1.(stack_index) = w.(stack_index) /\
     push c w =
       match command_redo model_setData c w with
       | Ok _ _ => Ok tt pushed
       | Exc e _ => Exc e pushed
       end) /\
  match (set 0 1 "Process 2" ;;; set 0 1 "Process 3" ;;; undo ;;;
         set 0 1 "Process 4") w_process with
  | Ok _ w4 =>
      w4.(command_list) =
        [PropertyChangeCommand (Idx 0 1) "Process 1" "Process 2";
         PropertyChangeCommand (Idx 0 1) "Process 2" "Process 4"] /\
      w4.(stack_index) = 2 /\
      redo w4 = Ok tt w4
  | Exc _ _ => False
  end.
Proof.
  split.
  - intros V HV w c _ w1 pushed.
    pose proof (command_redo_stack w c) as [Hc Hi].
    fold w1 in Hc, Hi. split; [exact Hc|]. split; [exact Hi|].
    unfold pushed, push, undostack_push, override_then. rewrite <- Hc, <- Hi.
    unfold w1. by destruct (command_redo model_setData c w).
  - vm_compute. repeat split; reflexivity.
Qed.

Lemma push_discards_redo_tail_witness :
  let w := set_stack [PropertyChangeCommand (Idx 0 1) "Process 1" "Process 2"] 0
             w_process in
  let c := PropertyChangeCommand (Idx 0 1) "Process 1" "Process 5" in
  let c_stale := PropertyChangeCommand (Idx 5 1) "Process 1" "Process 5" in
  w.(stack_index) < length w.(command_list) /\
  (let w1 := result_world (command_redo model_setData c w) in
   let pushed := set_stack (take w.(stack_index) w.(command_list) ++ [c])
                   (S w.(stack_index)) w1 in
   w1.(command_list) = w.(command_list) /\
   w1.(stack_index) = w.(stack_index) /\
   push c w =
     match command_redo model_setData c w with
     | Ok _ _ => Ok tt pushed
     | Exc e _ => Exc e pushed
     end) /\
  command_redo model_setData c_stale w =
    Exc IndexError (result_world (command_redo model_setData c_stale w)) /\
  (let w1 := result_world (command_redo model_setData c_stale w) in
   let pushed := set_stack (take w.(stack_index) w.(command_list) ++ [c_stale])
                   (S w.(stack_index)) w1 in
   w1.(command_list) = w.(command_list) /\
   w1.(stack_index) = w.(stack_index) /\
   push c_stale w =
     match command_redo model_setData c_stale w with
     | Ok _ _ => Ok tt pushed
     | Exc e _ => Exc e pushed
     end).
Proof.
  intros w c c_stale.
  assert (Hlt : w.(stack_index) < length w.(command_list)) by (simpl; lia).
  destruct push_discards_redo_tail as [Hgen _].
  split; [exact Hlt|]. split; [exact (Hgen string py_str w c Hlt)|].
  split; [vm_compute; reflexivity|].
  exact (Hgen string py_str w c_stale Hlt).
Defined.

(** C4. Writing into the value cell of an existing row a value equal (for
    Python's [!=]) to the stored one returns False and changes nothing:
    same records, no signal, no command. *)
Theorem set_same_value_noop :
  forall (V : Type) (HV : PyValue V) (w : world V) (row : nat)
    (it : PropertyItem V) (v : V),
  w.(properties) !! row = Some it ->
  py_ne (value it) v = false ->
  set (Z.of_nat row) 1 v w = Ok false w.
Proof.
  intros V HV w row it v Hl Hne.
  assert (Hlt : row < length w.(properties)) by (by eapply lookup_lt_Some).
  unfold set, bind, index, gets. rewrite index_of_value_column by exact Hlt.
  unfold model_setData, recursion_limit.
  exact (setData_same_value _ w row it v Hl Hne).
Qed.

Lemma set_same_value_noop_witness :
  w_process.(properties) !! 0 = Some (mkItem "Name" "Process 1" "string") /\
  py_ne (value (mkItem "Name" "Process 1" "string")) "Process 1" = false /\
  set (Z.of_nat 0) 1 "Process 1" w_process = Ok false w_process.
Proof.
  assert (Hl : w_process.(properties) !! 0 = Some (mkItem "Name" "Process 1" "string"))
    by reflexivity.
  assert (Hne : py_ne (value (mkItem "Name" "Process 1" "string")) "Process 1" = false)
    by reflexivity.
  split; [exact Hl|]. split; [exact Hne|].
  exact (set_same_value_noop string py_str w_process 0 _ "Process 1" Hl Hne).
Defined.

(** C5. A write into the read-only name column, or into a row outside the
    table, returns False without raising and changes nothing. *)
Theorem set_rejected_cells_noop :
  forall (V : Type) (HV : PyValue V) (w : world V) (row col : Z) (v : V),
  set row 0 v w = Ok false w /\
  ((row < 0 \/ Z.of_nat (length w.(properties)) <= row)%Z ->
   set row col v w = Ok false w).
Proof.
  intros V HV w row col v. split.
  - unfold set, bind, index, gets, model_setData, recursion_limit.
    destruct (decide (0 <= row < Z.of_nat (length w.(properties)))%Z) as [Hr|Hr].
    + unfold index_of. rewrite !bool_decide_true by lia. cbn [andb].
      apply setData_other_column; lia.
    + rewrite index_of_out by lia. apply setData_invalid.
  - intros Hr. unfold set, bind, index, gets, model_setData, recursion_limit.
    rewrite index_of_out by exact Hr. apply setData_invalid.
Qed.

Lemma set_rejected_cells_noop_witness :
  set 0 0 "Renamed" w_process = Ok false w_process /\
  ((1 < 0 \/ Z.of_nat (length w_process.(properties)) <= 1)%Z ->
   set 1 1 "Process 9" w_process = Ok false w_process) /\
  (1 < 0 \/ Z.of_nat (length w_process.(properties)) <= 1)%Z.
Proof.
  destruct (set_rejected_cells_noop string py_str w_process 1 1 "Process 9")
    as [_ Hout].
  destruct (set_rejected_cells_noop string py_str w_process 0 1 "Renamed")
    as [Hname _].
  split; [exact Hname|]. split; [exact Hout|]. right. simpl. lia.
Defined.

(** C6. Undo with the index at 0 and Redo with the index at the number of
    commands change nothing. *)
Theorem undo_redo_at_ends_noop :
  forall (V : Type) (HV : PyValue V) (w : world V),
  (w.(stack_index) = 0 -> undo w = Ok tt w) /\
  (w.(stack_index) = length w.(command_list) -> redo w = Ok tt w).
Proof.
  intros V HV w. split; intros Hi.
  - unfold undo, undostack_undo. by rewrite Hi.
  - unfold redo, undostack_redo. rewrite Hi, Nat.eqb_refl. reflexivity.
Qed.

Lemma undo_redo_at_ends_noop_witness :
  let w_end := result_world (set 0 1 "Process 2" w_process) in
  let w_start := result_world ((set 0 1 "Process 2" ;;; undo) w_process) in
  length w_start.(command_list) = 1 /\ w_start.(stack_index) = 0 /\
  undo w_start = Ok tt w_start /\
  length w_end.(command_list) = 1 /\
  w_end.(stack_index) = length w_end.(command_list) /\
  redo w_end = Ok tt w_end.
Proof.
  intros w_end w_start.
  destruct (undo_redo_at_ends_noop string py_str w_start) as [Hu _].
  destruct (undo_redo_at_ends_noop string py_str w_end) as [_ Hr].
  assert (H0 : w_start.(stack_index) = 0) by (vm_compute; reflexivity).
  assert (H1 : w_end.(stack_index) = length w_end.(command_list))
    by (vm_compute; reflexivity).
  split; [vm_compute; reflexivity|]. split; [exact H0|].
  split; [exact (Hu H0)|]. split; [vm_compute; reflexivity|].
  split; [exact H1|]. exact (Hr H1).
Defined.

(** Facts used for C7. *)

Lemma delegate_table_keys_nodup : NoDup delegate_table.*1.
Proof. apply (bool_decide_unpack _). vm_compute. reflexivity. Qed.

Lemma traverse_opt_unconverted {A B} (f : A -> option B) l :
  forallb (fun x => match f x with Some _ => true | None => false end) l = false ->
  traverse_opt f l = None.
Proof.
  induction l as [|x l IH]; cbn; [discriminate|].
  destruct (f x); cbn; [|reflexivity].
  intros Hl. by rewrite (IH Hl).
Qed.

Lemma vec_parse_unparsed {A} (conv : string -> option A) n text :
  components_convert conv n text = false -> vec_parse conv n text = None.
Proof.
  unfold components_convert, vec_parse. cbv zeta.
  destruct (Nat.eqb (length (split_on ","%char text)) n); cbn; [|reflexivity].
  apply traverse_opt_unconverted.
Qed.

Lemma vec3_parse_unparsed {F} (conv : string -> option F) text :
  components_convert conv 3 text = false -> vec3_parse conv text = None.
Proof.
  unfold components_convert, vec3_parse.
  destruct (split_on ","%char text) as [|a [|b [|c [|d r]]]]; cbn; try reflexivity.
  unfold converts. destruct (conv a), (conv b), (conv c); cbn; congruence.
Qed.

(** C7. A type tag that is not a key of [self.delegates] (and the missing
    type of an invalid index) gets [StringDelegate]; so the row showing a
    property of such a type is given a [StringDelegate] by [setModel].
    This is the only default: every registered tag gets its own delegate,
    and a tag gets [StringDelegate] exactly when it is ["string"] or not
    registered.  For every delegate that converts the stored text ([int],
    [float], the six vector delegates), text that does not parse makes
    [setEditorData] raise ValueError, with no handler in between. *)
Theorem unknown_type_gets_string_delegate :
  (forall t : string, t ∉ registered_tags -> delegate_for (Some t) = StringDelegate) /\
  delegate_for None = StringDelegate /\
  (forall (V : Type) (regex_match : string -> string -> bool)
     (ps : list (PropertyItem V)) (v : view) (row src : nat) (it : PropertyItem V),
     visible_rows regex_match v.(filter_pattern) ps !! row = Some src ->
     ps !! src = Some it -> type it ∉ registered_tags ->
     (setModel regex_match ps v).(row_delegates) !! row = Some StringDelegate) /\
  (forall (t : string) (d : delegate),
     (t, d) ∈ delegate_table -> delegate_for (Some t) = d) /\
  (forall t : string,
     delegate_for (Some t) = StringDelegate <-> t = "string" \/ t ∉ registered_tags) /\
  (forall (Fl : Type) (py_float : string -> option Fl) (float_spin vec_spin : Fl -> Fl)
     (vec_spin_int : Z -> exn + Fl) (d : delegate) (text : string),
     is_Some (parsing_setEditorData py_float float_spin vec_spin vec_spin_int d text) ->
     text_parses py_float d text = false ->
     parsing_setEditorData py_float float_spin vec_spin vec_spin_int d text =
       Some (inl ValueError)).
Proof.
  assert (Hunk : forall t : string, t ∉ registered_tags ->
            delegate_for (Some t) = StringDelegate).
  { intros t Ht. unfold delegate_for, delegates.
    by rewrite not_elem_of_list_to_map_1. }
  assert (Hknown : forall (t : string) (d : delegate),
            (t, d) ∈ delegate_table -> delegate_for (Some t) = d).
  { intros t d Hin. unfold delegate_for, delegates.
    by rewrite (elem_of_list_to_map_1 _ _ _ delegate_table_keys_nodup Hin). }
  split; [exact Hunk|]. split; [reflexivity|]. split.
  { intros V regex_match ps v row src it Hv Hs Ht.
    rewrite (setModel_lookup regex_match ps v row src Hv), Hs. cbn [option_map].
    by rewrite Hunk. }
  split; [exact Hknown|]. split.
  { intros t. split.
    - intros Hd.
      destruct (decide (t ∈ registered_tags)) as [Hin|Hn]; [left|right; exact Hn].
      unfold registered_tags in Hin.
      apply list_elem_of_fmap in Hin as ([t' d] & Ht & Hin). cbn in Ht. subst t.
      rewrite (Hknown t' d Hin) in Hd. subst d.
      apply list_elem_of_In in Hin. cbn in Hin.
      repeat (destruct Hin as [Heq|Hin]; [inversion Heq; reflexivity|]).
      destruct Hin.
    - intros [->|Hn]; [|exact (Hunk t Hn)].
      apply Hknown. apply list_elem_of_In. left. reflexivity. }
  intros Fl py_float float_spin vec_spin vec_spin_int d text Hs Hp.
  destruct d; cbn in Hs; try (destruct Hs as [? Hs]; discriminate);
    cbn [parsing_setEditorData]; cbn [text_parses] in Hp.
  - unfold IntDelegate_setEditorData. unfold converts in Hp.
    destruct (py_int text); [discriminate|reflexivity].
  - unfold FloatDelegate_setEditorData. unfold converts in Hp.
    destruct (py_float text); [discriminate|reflexivity].
  - unfold Vec2Delegate_setEditorData. by rewrite vec_parse_unparsed.
  - unfold vecf_setEditorData. by rewrite vec_parse_unparsed.
  - unfold Vec3Delegate_setEditorData. by rewrite vec_parse_unparsed.
  - unfold vec3_setEditorData. by rewrite vec3_parse_unparsed.
  - unfold Vec4Delegate_setEditorData. by rewrite vec_parse_unparsed.
  - unfold vecf_setEditorData. by rewrite vec_parse_unparsed.
Qed.

Lemma unknown_type_gets_string_delegate_witness :
  ("Vec3" ∉ registered_tags) /\
  delegate_for (Some "Vec3") = StringDelegate /\
  (setModel (fun _ _ => true) [mkItem "Tag" "x" "enum"] (mkView "" ∅)).(row_delegates)
    !! 0 = Some StringDelegate /\
  (("color", ColorDelegate) ∈ delegate_table) /\
  delegate_for (Some "color") = ColorDelegate /\
  is_Some (parsing_setEditorData py_int id id (fun z => inr z) IntDelegate "4.5") /\
  text_parses py_int IntDelegate "4.5" = false /\
  parsing_setEditorData py_int id id (fun z => inr z) IntDelegate "4.5" =
    Some (inl ValueError) /\
  is_Some (parsing_setEditorData py_int id id (fun z => inr z) Vec4fDelegate "1,2") /\
  text_parses py_int Vec4fDelegate "1,2" = false /\
  parsing_setEditorData py_int id id (fun z => inr z) Vec4fDelegate "1,2" =
    Some (inl ValueError).
Proof.
  destruct unknown_type_gets_string_delegate
    as (Hunk & _ & Hrow & Hknown & _ & Hparse).
  assert (Hn : "Vec3" ∉ registered_tags)
    by (apply (bool_decide_unpack _); vm_compute; reflexivity).
  assert (Hn' : "enum" ∉ registered_tags)
    by (apply (bool_decide_unpack _); vm_compute; reflexivity).
  assert (Hc : ("color", ColorDelegate) ∈ delegate_table)
    by (apply list_elem_of_In; cbn; auto).
  split; [exact Hn|]. split; [exact (Hunk _ Hn)|]. split.
  { apply (Hrow string (fun _ _ => true) [mkItem "Tag" "x" "enum"] (mkView "" ∅)
             0 0 (mkItem "Tag" "x" "enum")); [reflexivity | reflexivity | exact Hn']. }
  split; [exact Hc|]. split; [exact (Hknown _ _ Hc)|].
  split; [eexists; reflexivity|]. split; [vm_compute; reflexivity|]. split.
  { apply (Hparse Z py_int id id (fun z => inr z) IntDelegate "4.5");
      [eexists; reflexivity | vm_compute; reflexivity]. }
  split; [eexists; reflexivity|]. split; [vm_compute; reflexivity|].
  apply (Hparse Z py_int id id (fun z => inr z) Vec4fDelegate "1,2");
    [eexists; reflexivity | vm_compute; reflexivity].
Defined.

(** C8. The [vec3f] adapter on "1.0,2.0,3.0": [setEditorData] splits at
    the commas and converts each part with [float], giving 1.0, 2.0, 3.0
    in the spin boxes, and [setModelData] writes back exactly
    "1.0,2.0,3.0".  Assumed of Python and Qt: [float("1.0") == 1.0] (and
    likewise for 2.0, 3.0), a [QDoubleSpinBox] (range 0 to 99.99, two
    decimals) keeps these values, and [f"{1.0}"] is "1.0". *)
Theorem vec3f_round_trip :
  forall (F : Type) (py_float : string -> option F) (spin_value : F -> F)
    (py_format : F -> string) (x y z : F),
  py_float "1.0" = Some x -> py_float "2.0" = Some y -> py_float "3.0" = Some z ->
  spin_value x = x -> spin_value y = y -> spin_value z = z ->
  py_format x = "1.0" -> py_format y = "2.0" -> py_format z = "3.0" ->
  vec3_parse py_float "1.0,2.0,3.0" = Some (x, y, z) /\
  vec3_setEditorData py_float spin_value "1.0,2.0,3.0" = inr (x, y, z) /\
  vec3_setModelData_text py_format (x, y, z) = "1.0,2.0,3.0".
Proof.
  intros F py_float spin_value py_format x y z Hx Hy Hz Sx Sy Sz Fx Fy Fz.
  assert (Hp : vec3_parse py_float "1.0,2.0,3.0" = Some (x, y, z)).
  { unfold vec3_parse. cbn. by rewrite Hx, Hy, Hz. }
  split; [exact Hp|]. split.
  - unfold vec3_setEditorData. by rewrite Hp, Sx, Sy, Sz.
  - cbn. by rewrite Fx, Fy, Fz.
Qed.

Lemma vec3f_round_trip_witness :
  Some "1.0" = Some "1.0" /\
  vec3_parse Some "1.0,2.0,3.0" = Some ("1.0", "2.0", "3.0") /\
  vec3_setEditorData Some (fun x => x) "1.0,2.0,3.0" = inr ("1.0", "2.0", "3.0") /\
  vec3_setModelData_text (fun x => x) ("1.0", "2.0", "3.0") = "1.0,2.0,3.0".
Proof.
  split; [reflexivity|].
  exact (vec3f_round_trip string Some (fun x => x) (fun x => x) "1.0" "2.0" "3.0"
           eq_refl eq_refl eq_refl eq_refl eq_refl eq_refl eq_refl eq_refl eq_refl).
Defined.

(** C9. [setFilter(pattern)] leaves the model (records, undo stack,
    signals) as it is, shows the rows whose name matches [pattern], and
    doing it a second time with the same pattern gives the same state. *)
Theorem setFilter_frame_idempotent :
  forall (V : Type) (regex_match : string -> string -> bool) (pattern : string)
    (s : world V * view),
  fst (setFilter regex_match pattern s) = fst s /\
  (snd (setFilter regex_match pattern s)).(filter_pattern) = pattern /\
  visible_rows regex_match (snd (setFilter regex_match pattern s)).(filter_pattern)
    (fst (setFilter regex_match pattern s)).(properties) =
  visible_rows regex_match pattern (fst s).(properties) /\
  setFilter regex_match pattern (setFilter regex_match pattern s) =
  setFilter regex_match pattern s.
Proof.
  intros V regex_match pattern [w v].
  split; [reflexivity|]. split; [reflexivity|]. split; [reflexivity|].
  cbv beta iota delta [setFilter fst snd].
  set (v1 := mkView pattern (row_delegates v)).
  change (mkView pattern (row_delegates (setModel regex_match (properties w) v1)))
    with (setModel regex_match (properties w) v1).
  by rewrite setModel_idempotent.
Qed.

(** C10. An edit that changes a value cell (with [v != v] false, as for
    every value but a NaN): [setData] stores [v] and emits [dataChanged],
    [afterDataChanged] pushes the command, and that push's [redo] finds
    [v] already stored, so the whole edit leaves exactly one changed
    record, one [dataChanged], one [afterDataChanged] and one new
    command. *)
Theorem edit_push_no_double_apply :
  forall (V : Type) (HV : PyValue V) (w : world V) (row : nat)
    (it : PropertyItem V) (v : V),
  w.(is_undo_redo) = false -> w.(properties) !! row = Some it ->
  py_ne (value it) v = true -> py_ne v v = false ->
  set (Z.of_nat row) 1 v w =
  Ok true
    (set_stack (take w.(stack_index) w.(command_list)
                ++ [PropertyChangeCommand (Idx row 1) (value it) v])
       (S w.(stack_index))
       (log (AfterDataChanged (Idx row 1) (value it) v)
          (log (DataChanged (Idx row 1) (Idx row 1))
             (set_properties (<[row := upd_value it v]> w.(properties)) w)))).
Proof.
  intros V HV w row it v Hf Hl Hne Hvv.
  rewrite (set_edit w row it v Hf Hl Hne), Hvv.
  destruct w; cbn in Hf |- *. by subst.
Qed.

Lemma edit_push_no_double_apply_witness :
  w_process.(is_undo_redo) = false /\
  w_process.(properties) !! 0 = Some (mkItem "Name" "Process 1" "string") /\
  py_ne "Process 1" "Process 2" = true /\ py_ne "Process 2" "Process 2" = false /\
  set (Z.of_nat 0) 1 "Process 2" w_process =
  Ok true
    (set_stack (take w_process.(stack_index) w_process.(command_list)
                ++ [PropertyChangeCommand (Idx 0 1) "Process 1" "Process 2"])
       (S w_process.(stack_index))
       (log (AfterDataChanged (Idx 0 1) "Process 1" "Process 2")
          (log (DataChanged (Idx 0 1) (Idx 0 1))
             (set_properties
                (<[0 := upd_value (mkItem "Name" "Process 1" "string") "Process 2"]>
                   w_process.(properties)) w_process)))).
Proof.
  assert (H1 : w_process.(is_undo_redo) = false) by reflexivity.
  assert (H2 : w_process.(properties) !! 0 = Some (mkItem "Name" "Process 1" "string"))
    by reflexivity.
  assert (H3 : py_ne (value (mkItem "Name" "Process 1" "string")) "Process 2" = true)
    by reflexivity.
  assert (H4 : py_ne "Process 2" "Process 2" = false) by reflexivity.
  split; [exact H1|]. split; [exact H2|]. split; [exact H3|]. split; [exact H4|].
  exact (edit_push_no_double_apply string py_str w_process 0 _ "Process 2" H1 H2 H3 H4).
Defined.

(** ** Main window actions, delegates and views: facts *)












Lemma has_char_append c a b :
  has_char c (String.append a b) = has_char c a || has_char c b.
Proof. induction a as [|d a IH]; simpl; [done|]. by rewrite IH, orb_assoc. Qed.

Lemma has_char_concat c sep l :
  Exists (fun x => has_char c x = true) l -> has_char c (String.concat sep l) = true.
Proof.
  induction 1 as [x l Hx|x l Hl IH].
  - destruct l; cbn [String.concat]; [done|]. by rewrite has_char_append, Hx.
  - destruct l as [|y l]; [by inversion Hl|].
    cbn [String.concat] in *. rewrite !has_char_append, IH. by rewrite !orb_true_r.
Qed.

Lemma split_on_has_char c d s :
  d <> c -> has_char d s = true ->
  Exists (fun p => has_char d p = true) (split_on c s).
Proof.
  intros Hdc. induction s as [|e s IH]; cbn; [discriminate|].
  destruct (Ascii.eqb e c) eqn:Ec.
  - apply Ascii.eqb_eq in Ec as ->.
    rewrite (proj2 (Ascii.eqb_neq c d)) by congruence. cbn.
    intros Hs. right. by apply IH.
  - intros [Hed|Hs]%orb_prop.
    + apply Ascii.eqb_eq in Hed as ->.
      destruct (split_on c s) as [|p ps]; left; cbn; by rewrite Ascii.eqb_refl.
    + specialize (IH Hs).
      destruct (split_on c s) as [|p ps]; [by inversion IH|].
      inversion IH as [? ? Hp|? ? Hps]; subst.
      * left. cbn. by rewrite Hp, orb_true_r.
      * by right.
Qed.

Lemma digits_acc_bad d l acc pd :
  In d l -> py_isdigit d = false -> d <> "_"%char -> digits_acc acc pd l = None.
Proof.
  intros Hin Hdig Hus. revert acc pd.
  induction l as [|e l IH]; intros acc pd; [done|].
  destruct Hin as [->|Hin]; cbn.
  - rewrite Hdig. destruct (Ascii.eqb_spec d "_"%char); [done|]. done.
  - destruct (py_isdigit e); [by apply IH|].
    destruct (Ascii.eqb e "_" && pd); [by apply IH|done].
Qed.

Lemma drop_space_in d l : In d l -> py_isspace d = false -> In d (drop_space l).
Proof.
  induction l as [|e l IH]; [done|]. intros [->|Hin] Hsp; cbn.
  - rewrite Hsp. by left.
  - destruct (py_isspace e); [by apply IH|]. by right.
Qed.

Lemma has_char_in c s : has_char c s = true -> In c (list_ascii_of_string s).
Proof.
  induction s as [|d s IH]; cbn; [discriminate|].
  intros [Hd|Hs]%orb_prop; [apply Ascii.eqb_eq in Hd; by left|right; auto].
Qed.

Lemma py_int_dot s : has_char "."%char s = true -> py_int s = None.
Proof.
  intros Hs. apply has_char_in in Hs. unfold py_int.
  assert (Hin : In "."%char (rev (drop_space (rev (drop_space (list_ascii_of_string s)))))).
  { apply (proj1 (in_rev _ _)). apply drop_space_in; [|reflexivity].
    apply (proj1 (in_rev _ _)). apply drop_space_in; [exact Hs|reflexivity]. }
  revert Hin.
  generalize (rev (drop_space (rev (drop_space (list_ascii_of_string s))))) as l.
  intros l Hin.
  assert (Hbad : forall r, In "."%char r -> digits_acc 0 false r = None)
    by (intros r Hr; by apply (digits_acc_bad "."%char)).
  destruct l as [|c r]; [done|].
  destruct Hin as [->|Hr]; [reflexivity|].
  destruct c as [[] [] [] [] [] [] [] []]; try (apply Hbad; by right);
    cbn [option_map]; by rewrite Hbad.
Qed.

Lemma traverse_opt_none {A B} (f : A -> option B) l :
  Exists (fun x => f x = None) l -> traverse_opt f l = None.
Proof.
  induction 1 as [x l Hx|x l _ IH]; cbn.
  - by rewrite Hx.
  - destruct (f x); [|done]. by rewrite IH.
Qed.

Lemma vec_parse_int_dot {F} (fmt : F -> string) n xs :
  Exists (fun x => has_char "."%char (fmt x) = true) xs ->
  vec_parse py_int n (vec_setModelData_text fmt xs) = None.
Proof.
  intros Hx. unfold vec_parse, vec_setModelData_text.
  destruct (Nat.eqb _ n); [|done].
  apply traverse_opt_none.
  assert (Hc : has_char "."%char (String.concat "," (map fmt xs)) = true).
  { apply has_char_concat. apply Exists_exists in Hx as (x & Hin & Hx).
    apply Exists_exists. exists (fmt x). split; [|done].
    apply list_elem_of_In, in_map, list_elem_of_In, Hin. }
  eapply Exists_impl; [apply (split_on_has_char ","%char "."%char); [discriminate|exact Hc]|].
  intros p Hp. by apply py_int_dot.
Qed.


Lemma split_comma_space_nonempty s : split_comma_space s <> [].
Proof.
  destruct s as [|c s]; cbn; [done|].
  assert (Hc : forall ps, cons_head c ps <> []) by (intros [|p ps]; done).
  destruct (Ascii.eqb c ","); [|apply Hc].
  destruct s as [|c' s]; [apply Hc|]. destruct (Ascii.eqb c' " "); [done|apply Hc].
Qed.

Lemma concat_cons_head c ps :
  ps <> [] -> join_comma_space (cons_head c ps) = String c (join_comma_space ps).
Proof. destruct ps as [|p [|q ps]]; done. Qed.

Lemma concat_empty_cons ps :
  ps <> [] -> join_comma_space ("" :: ps) = String ","%char (String " "%char (join_comma_space ps)).
Proof. destruct ps as [|p ps]; done. Qed.

Lemma join_split_comma_space s : join_comma_space (split_comma_space s) = s.
Proof.
  assert (H : forall n s, String.length s < n -> join_comma_space (split_comma_space s) = s).
  2:{ apply (H (S (String.length s))). lia. }
  induction n as [|n IH]; intros t Hlt; [lia|].
  destruct t as [|c rest]; [done|]. cbn in Hlt. cbn [split_comma_space].
  assert (Hr : join_comma_space (cons_head c (split_comma_space rest)) = String c rest).
  { rewrite concat_cons_head by apply split_comma_space_nonempty.
    rewrite IH by lia. done. }
  destruct (Ascii.eqb c ",") eqn:Ec; [|exact Hr].
  destruct rest as [|c' rest']; [exact Hr|].
  destruct (Ascii.eqb c' " ") eqn:Ec'; [|exact Hr].
  apply Ascii.eqb_eq in Ec as ->. apply Ascii.eqb_eq in Ec' as ->.
  rewrite concat_empty_cons by apply split_comma_space_nonempty.
  rewrite IH by (cbn in Hlt; lia). done.
Qed.

Lemma append_String c a b :
  String.append (String c a) b = String c (String.append a b).
Proof. reflexivity. Qed.

Lemma split_comma_space_app x r :
  has_comma_space x = false ->
  split_comma_space (String.append x (String ","%char (String " "%char r))) =
  x :: split_comma_space r.
Proof.
  induction x as [|c x IH]; intros Hx; [reflexivity|].
  cbn [has_comma_space] in Hx. apply orb_false_iff in Hx as [Hc Hx].
  specialize (IH Hx). rewrite append_String. cbn [split_comma_space].
  destruct (Ascii.eqb c ",") eqn:Ec.
  - apply Ascii.eqb_eq in Ec as ->. destruct x as [|c' x'].
    + reflexivity.
    + rewrite append_String. cbn in Hc. rewrite Hc.
      rewrite append_String in IH. rewrite IH. done.
  - rewrite IH. done.
Qed.

Lemma split_comma_space_no_sep x :
  has_comma_space x = false -> split_comma_space x = [x].
Proof.
  induction x as [|c x IH]; intros Hx; [reflexivity|].
  cbn [has_comma_space] in Hx. apply orb_false_iff in Hx as [Hc Hx].
  specialize (IH Hx). cbn [split_comma_space].
  destruct (Ascii.eqb c ",") eqn:Ec.
  - destruct x as [|c' x'].
    + rewrite IH. done.
    + cbn in Hc. rewrite Hc. rewrite IH. done.
  - rewrite IH. done.
Qed.

Lemma split_join_comma_space l :
  Forall (fun x => has_comma_space x = false) l -> l <> [] ->
  split_comma_space (join_comma_space l) = l.
Proof.
  induction 1 as [|x l Hx Hl IH]; [done|]. intros _.
  destruct l as [|y l].
  - by apply split_comma_space_no_sep.
  - change (join_comma_space (x :: y :: l)) with
      (String.append x (String ","%char (String " "%char (join_comma_space (y :: l))))).
    rewrite split_comma_space_app by done. by rewrite IH.
Qed.

Section Colors.
Context {V : Type} `{PyValue V}.

Lemma row_color_changed_eq (w : world V) :
  row_color_changed w =
  Ok tt (log (DataChanged (table_corners w).1 (table_corners w).2) w).
Proof.
  unfold row_color_changed, bind, index, gets, emit, modify, table_corners.
  destruct (length (properties w)) as [|n] eqn:Hn.
  - rewrite !index_of_out by lia. reflexivity.
  - pose proof (index_of_valid w 0 0 ltac:(lia) ltac:(lia)) as H0. change (Z.of_nat 0) with 0%Z in H0. rewrite H0.
    replace (Z.of_nat (S n) - 1)%Z with (Z.of_nat n) by lia.
    rewrite (index_of_value_column w n) by lia. reflexivity.
Qed.

Lemma setEvenRowColor_eq c (w : world V) :
  setEvenRowColor c w = Ok tt (log (DataChanged (table_corners w).1 (table_corners w).2) (set_even c w)).
Proof.
  unfold setEvenRowColor, bind, modify. rewrite row_color_changed_eq. reflexivity.
Qed.

Lemma setOddRowColor_eq c (w : world V) :
  setOddRowColor c w = Ok tt (log (DataChanged (table_corners w).1 (table_corners w).2) (set_odd c w)).
Proof.
  unfold setOddRowColor, bind, modify. rewrite row_color_changed_eq. reflexivity.
Qed.

End Colors.

Section Actions.
Context {V : Type} `{PyValue V}.

Lemma undo_step (w : world V) k c :
  w.(stack_index) = S k -> w.(command_list) !! k = Some c ->
  undo w = override_then (command_undo model_setData c)
             (fun w' => set_stack w'.(command_list) k w') w.
Proof. intros Hi Hc. unfold undo, undostack_undo. by rewrite Hi, Hc. Qed.

Lemma redo_step (w : world V) c :
  w.(stack_index) <> length w.(command_list) ->
  w.(command_list) !! w.(stack_index) = Some c ->
  redo w = override_then (command_redo model_setData c)
             (fun w' => set_stack w'.(command_list) (S w.(stack_index)) w') w.
Proof.
  intros Hi Hc. unfold redo, undostack_redo.
  rewrite (proj2 (Nat.eqb_neq _ _) Hi), Hc. reflexivity.
Qed.

Lemma lookup_pushed (cl : list (command V)) idx c :
  idx <= length cl -> (take idx cl ++ [c]) !! idx = Some c.
Proof.
  intros Hle. rewrite lookup_app_r; rewrite length_take; [|lia].
  replace (idx - idx `min` length cl) with 0 by lia. reflexivity.
Qed.

Lemma length_pushed (cl : list (command V)) idx c :
  idx <= length cl -> length (take idx cl ++ [c]) = S idx.
Proof. intros Hle. rewrite length_app, length_take. cbn. lia. Qed.

Lemma MainWindow_setEvenRowColor_eq c (w : world V) :
  MainWindow_setEvenRowColor (Some c) w =
  Ok tt (set_stack (take w.(stack_index) w.(command_list)
                    ++ [SetRowColorCommand "even" w.(even_row_color) c])
           (S w.(stack_index))
           (log (DataChanged (table_corners w).1 (table_corners w).2) (set_even c w))).
Proof.
  unfold MainWindow_setEvenRowColor, push, undostack_push, bind at 1, gets.
  unfold override_then. cbn [command_redo String.eqb Ascii.eqb Bool.eqb andb].
  rewrite setEvenRowColor_eq. reflexivity.
Qed.

Lemma MainWindow_setOddRowColor_eq c (w : world V) :
  MainWindow_setOddRowColor (Some c) w =
  Ok tt (set_stack (take w.(stack_index) w.(command_list)
                    ++ [SetRowColorCommand "odd" w.(odd_row_color) c])
           (S w.(stack_index))
           (log (DataChanged (table_corners w).1 (table_corners w).2) (set_odd c w))).
Proof.
  unfold MainWindow_setOddRowColor, push, undostack_push, bind at 1, gets.
  unfold override_then. cbn [command_redo String.eqb Ascii.eqb Bool.eqb andb].
  rewrite setOddRowColor_eq. reflexivity.
Qed.

Lemma MainWindow_setBackgroundColor_eq c (w : world V) :
  MainWindow_setBackgroundColor (Some c) w =
  Ok tt (set_stack (take w.(stack_index) w.(command_list)
                    ++ [SetBackgroundColorCommand w.(background) c])
           (S w.(stack_index)) (set_background c w)).
Proof. reflexivity. Qed.

End Actions.

(** X1: the main window's even-row colour action does nothing when the
    dialog is cancelled; otherwise it pushes one [SetRowColorCommand] that
    sets the even-row colour, which [undo] restores and [redo] sets again,
    leaving the properties, the odd-row colour and the background alone. *)
Theorem even_color_action_undo_redo :
  forall (V : Type) `{PyValue V} (w : world V) (c : color),
  w.(stack_index) <= length w.(command_list) ->
  MainWindow_setEvenRowColor None w = Ok tt w /\
  exists w1 w2 w3,
    MainWindow_setEvenRowColor (Some c) w = Ok tt w1 /\
    undo w1 = Ok tt w2 /\ redo w2 = Ok tt w3 /\
    w1.(even_row_color) = c /\ w2.(even_row_color) = w.(even_row_color) /\
    w3.(even_row_color) = c /\
    w1.(command_list) = (take w.(stack_index) w.(command_list)
                         ++ [SetRowColorCommand "even" w.(even_row_color) c]) /\
    w2.(command_list) = w1.(command_list) /\ w3.(command_list) = w1.(command_list) /\
    w1.(stack_index) = S w.(stack_index) /\ w2.(stack_index) = w.(stack_index) /\
    w3.(stack_index) = S w.(stack_index) /\
    Forall (fun w' => w'.(properties) = w.(properties) /\
                      w'.(odd_row_color) = w.(odd_row_color) /\
                      w'.(background) = w.(background)) [w1; w2; w3].
Proof.
  intros V HV w c Hle. split; [reflexivity|].
  rewrite MainWindow_setEvenRowColor_eq.
  set (w1 := set_stack _ _ _).
  assert (Hi1 : w1.(stack_index) = S w.(stack_index)) by reflexivity.
  assert (Hc1 : w1.(command_list) !! w.(stack_index) =
                Some (SetRowColorCommand "even" w.(even_row_color) c))
    by (apply lookup_pushed, Hle).
  exists w1. eexists. eexists. split; [reflexivity|]. split.
  { rewrite (undo_step w1 _ _ Hi1 Hc1).
    unfold override_then. cbn [command_undo String.eqb Ascii.eqb Bool.eqb andb].
    rewrite setEvenRowColor_eq. reflexivity. }
  split.
  { rewrite (redo_step _ (SetRowColorCommand "even" w.(even_row_color) c)).
    - unfold override_then. cbn [command_redo String.eqb Ascii.eqb Bool.eqb andb].
      rewrite setEvenRowColor_eq. reflexivity.
    - cbn. rewrite length_pushed by exact Hle. lia.
    - cbn. apply lookup_pushed, Hle. }
  repeat split; repeat constructor.
Qed.

(** X2: the same for the odd-row colour action. *)
Theorem odd_color_action_undo_redo :
  forall (V : Type) `{PyValue V} (w : world V) (c : color),
  w.(stack_index) <= length w.(command_list) ->
  MainWindow_setOddRowColor None w = Ok tt w /\
  exists w1 w2 w3,
    MainWindow_setOddRowColor (Some c) w = Ok tt w1 /\
    undo w1 = Ok tt w2 /\ redo w2 = Ok tt w3 /\
    w1.(odd_row_color) = c /\ w2.(odd_row_color) = w.(odd_row_color) /\
    w3.(odd_row_color) = c /\
    w1.(command_list) = (take w.(stack_index) w.(command_list)
                         ++ [SetRowColorCommand "odd" w.(odd_row_color) c]) /\
    w2.(command_list) = w1.(command_list) /\ w3.(command_list) = w1.(command_list) /\
    w1.(stack_index) = S w.(stack_index) /\ w2.(stack_index) = w.(stack_index) /\
    w3.(stack_index) = S w.(stack_index) /\
    Forall (fun w' => w'.(properties) = w.(properties) /\
                      w'.(even_row_color) = w.(even_row_color) /\
                      w'.(background) = w.(background)) [w1; w2; w3].
Proof.
  intros V HV w c Hle. split; [reflexivity|].
  rewrite MainWindow_setOddRowColor_eq.
  set (w1 := set_stack _ _ _).
  assert (Hi1 : w1.(stack_index) = S w.(stack_index)) by reflexivity.
  assert (Hc1 : w1.(command_list) !! w.(stack_index) =
                Some (SetRowColorCommand "odd" w.(odd_row_color) c))
    by (apply lookup_pushed, Hle).
  exists w1. eexists. eexists. split; [reflexivity|]. split.
  { rewrite (undo_step w1 _ _ Hi1 Hc1).
    unfold override_then. cbn [command_undo String.eqb Ascii.eqb Bool.eqb andb].
    rewrite setOddRowColor_eq. reflexivity. }
  split.
  { rewrite (redo_step _ (SetRowColorCommand "odd" w.(odd_row_color) c)).
    - unfold override_then. cbn [command_redo String.eqb Ascii.eqb Bool.eqb andb].
      rewrite setOddRowColor_eq. reflexivity.
    - cbn. rewrite length_pushed by exact Hle. lia.
    - cbn. apply lookup_pushed, Hle. }
  repeat split; repeat constructor.
Qed.

(** X4: the background colour action does nothing when the dialog is
    cancelled; otherwise it pushes one [SetBackgroundColorCommand] that sets
    the background, which [undo] restores and [redo] sets again; neither
    touches the properties, the row colours or emits a signal. *)
Theorem background_action_undo_redo :
  forall (V : Type) `{PyValue V} (w : world V) (c : color),
  w.(stack_index) <= length w.(command_list) ->
  MainWindow_setBackgroundColor None w = Ok tt w /\
  exists w1 w2 w3,
    MainWindow_setBackgroundColor (Some c) w = Ok tt w1 /\
    undo w1 = Ok tt w2 /\ redo w2 = Ok tt w3 /\
    w1.(background) = c /\ w2.(background) = w.(background) /\
    w3.(background) = c /\
    w1.(command_list) = (take w.(stack_index) w.(command_list)
                         ++ [SetBackgroundColorCommand w.(background) c]) /\
    w2.(command_list) = w1.(command_list) /\ w3.(command_list) = w1.(command_list) /\
    w1.(stack_index) = S w.(stack_index) /\ w2.(stack_index) = w.(stack_index) /\
    w3.(stack_index) = S w.(stack_index) /\
    Forall (fun w' => w'.(properties) = w.(properties) /\
                      w'.(even_row_color) = w.(even_row_color) /\
                      w'.(odd_row_color) = w.(odd_row_color) /\
                      w'.(events) = w.(events)) [w1; w2; w3].
Proof.
  intros V HV w c Hle. split; [reflexivity|].
  rewrite MainWindow_setBackgroundColor_eq.
  set (w1 := set_stack _ _ _).
  assert (Hi1 : w1.(stack_index) = S w.(stack_index)) by reflexivity.
  assert (Hc1 : w1.(command_list) !! w.(stack_index) =
                Some (SetBackgroundColorCommand w.(background) c))
    by (apply lookup_pushed, Hle).
  exists w1. eexists. eexists. split; [reflexivity|]. split.
  { rewrite (undo_step w1 _ _ Hi1 Hc1). reflexivity. }
  split.
  { rewrite (redo_step _ (SetBackgroundColorCommand w.(background) c)).
    - reflexivity.
    - cbn. rewrite length_pushed by exact Hle. lia.
    - cbn. apply lookup_pushed, Hle. }
  repeat split; repeat constructor.
Qed.

(** X5: after the even-row colour action, the [BackgroundRole] of a cell is
    the item's own value for the value cell of a ["color"] property, and
    otherwise the new colour on even rows and the odd-row colour on odd
    rows. *)
Theorem row_background_after_even_color :
  forall (V : Type) `{PyValue V} (w w1 : world V) (c : color) row col it,
  MainWindow_setEvenRowColor (Some c) w = Ok tt w1 ->
  w.(properties) !! row = Some it ->
  data_background (Idx row col) w1 =
  Ok (if Nat.eqb col 1 && String.eqb (type it) "color"
      then BgValueColor (value it)
      else BgRowColor (if Nat.even row then c else w.(odd_row_color))) w1.
Proof.
  intros V HV w w1 c row col it Hact Hl.
  rewrite MainWindow_setEvenRowColor_eq in Hact. injection Hact as <-.
  unfold data_background, bind, get_property_item, gets. cbn [properties set_stack log set_even].
  rewrite Hl. destruct (Nat.eqb col 1 && String.eqb (type it) "color"); reflexivity.
Qed.

Lemma model_setData_as_set {V} `{PyValue V} (w : world V) row v :
  row < length w.(properties) ->
  model_setData (Idx row 1) v EditRole w = set (Z.of_nat row) 1 v w.
Proof.
  intros Hr. unfold set, bind, index, gets. by rewrite index_of_value_column.
Qed.

(** X6: committing a [ColorDelegate] editor whose colour equals the stored
    one changes nothing: no [setData], no command, no signal. *)
Theorem ColorDelegate_same_color_noop :
  forall (w : world string) row it (c : color),
  w.(properties) !! row = Some it -> value it = c ->
  ColorDelegate_setModelData c (Idx row 1) w = Ok tt w.
Proof.
  intros w row it c Hl Hv. unfold ColorDelegate_setModelData, data_display, bind, get_property_item.
  unfold color in *. rewrite Hl. cbn. rewrite Hv, String.eqb_refl. reflexivity.
Qed.

(** X7: committing a different colour outside an undo or redo stores it,
    emits [dataChanged], [afterDataChanged], pushes one
    [PropertyChangeCommand], and then emits [dataChanged] once more from
    [ColorDelegate.setModelData] itself. *)
Theorem ColorDelegate_new_color :
  forall (w : world string) row it (c : color),
  w.(is_undo_redo) = false -> w.(properties) !! row = Some it -> value it <> c ->
  ColorDelegate_setModelData c (Idx row 1) w =
  Ok tt
    (log (DataChanged (Idx row 1) (Idx row 1))
      (set_stack (take w.(stack_index) w.(command_list)
                  ++ [PropertyChangeCommand (Idx row 1) (value it) c])
         (S w.(stack_index))
         (log (AfterDataChanged (Idx row 1) (value it) c)
            (log (DataChanged (Idx row 1) (Idx row 1))
               (set_properties (<[row := upd_value it c]> w.(properties)) w))))).
Proof.
  intros w row it c Hf Hl Hne.
  assert (Hlt : row < length w.(properties)) by (by eapply lookup_lt_Some).
  unfold ColorDelegate_setModelData, data_display, bind, get_property_item.
  unfold color in *. rewrite Hl. cbn -[model_setData emit].
  rewrite (proj2 (String.eqb_neq _ _) Hne). cbn -[model_setData emit].
  rewrite model_setData_as_set by exact Hlt.
  assert (Hpy : py_ne (value it) c = true)
    by (cbn; by rewrite (proj2 (String.eqb_neq _ _) Hne)).
  rewrite (set_edit w row it c Hf Hl Hpy).
  assert (Hcc : py_ne c c = false) by (cbn; by rewrite String.eqb_refl).
  rewrite Hcc. destruct w; cbn in Hf |- *. subst. reflexivity.
Qed.

Section DC.
Context {V : Type} `{PyValue V}.

Lemma on_rows_spec (w : world V) rows :
  on_rows rows w = Ok (omap (cursor_emission w) rows) w.
Proof.
  induction rows as [|row rows IH]; [reflexivity|].
  cbn [on_rows omap list_omap]. unfold bind, index, gets.
  unfold cursor_emission at 1.
  destruct (decide (0 <= row < Z.of_nat (length w.(properties)))%Z) as [Hr|Hr].
  - rewrite bool_decide_true by exact Hr.
    assert (Hlt : Z.to_nat row < length w.(properties)) by lia.
    pose proof (index_of_valid w (Z.to_nat row) 0 Hlt ltac:(lia)) as H0.
    pose proof (index_of_valid w (Z.to_nat row) 1 Hlt ltac:(lia)) as H1.
    rewrite Z2Nat.id in H0, H1 by lia. change (Z.of_nat 0) with 0%Z in H0. change (Z.of_nat 1) with 1%Z in H1. rewrite H0, H1.
    destruct (lookup_lt_is_Some_2 _ _ Hlt) as [it Hl].
    unfold data_display, bind, get_property_item. rewrite Hl. cbn [Nat.eqb ret is_cursor_name].
    destruct (String.eqb (name it) "Cursor").
    + cbn. rewrite Hl. cbn. destruct (dict_path (value it)); cbn; rewrite IH; reflexivity.
    + cbn. rewrite IH. reflexivity.
  - rewrite bool_decide_false by exact Hr.
    rewrite !index_of_out by lia. cbn. rewrite IH. reflexivity.
Qed.

End DC.

(** X11: [on_data_changed] changes nothing in the model and emits
    [delegateChanged] exactly for the rows of [range(top, bottom + 1)] that
    lie in the model and whose name is ["Cursor"], each with the row's
    displayed value; an invalid index counts as row [-1]. *)
Theorem on_data_changed_emits_cursor_rows :
  forall (V : Type) `{PyValue V} (w : world V) (top_left bottom_right : qindex),
  on_data_changed top_left bottom_right w =
  Ok (omap (fun row : Z =>
              if bool_decide (0 <= row < Z.of_nat (length w.(properties)))%Z then
                match w.(properties) !! Z.to_nat row with
                | Some it =>
                    if String.eqb (name it) "Cursor"
                    then Some (row, DValue (default (value it) (dict_path (value it))))
                    else None
                | None => None
                end
              else None)
           (py_range (qrow top_left) (qrow bottom_right + 1))) w.
Proof.
  intros V HV w tl br. unfold on_data_changed. apply on_rows_spec.
Qed.

(** X12: after [setFilter], proxy row [k] gets the delegate registered for
    the type of the [k]-th visible source row, and [StringDelegate] if that
    type has none. *)
Theorem setFilter_row_delegates :
  forall (V : Type) (regex_match : string -> string -> bool) (pattern : string)
    (w : world V) (v : view) (k src : nat),
  visible_rows regex_match pattern w.(properties) !! k = Some src ->
  (snd (setFilter regex_match pattern (w, v))).(row_delegates) !! k =
  Some (delegate_for (option_map type (w.(properties) !! src))).
Proof.
  intros V regex_match pattern w v k src Hv. cbn [setFilter snd].
  by apply setModel_lookup.
Qed.

(** X3: [PropertyModel.setEvenRowColor] and [setOddRowColor] store the
    colour and emit one [dataChanged] from [index(0, 0)] to
    [index(rowCount() - 1, columnCount() - 1)]; on an empty model both
    corners are invalid indexes. *)
Theorem PropertyModel_row_color_dataChanged_span :
  forall (V : Type) `{PyValue V} (w : world V) (c : color),
  let span := match length w.(properties) with
              | O => (Invalid, Invalid)
              | S n => (Idx 0 0, Idx n 1)
              end in
  setEvenRowColor c w = Ok tt (log (DataChanged span.1 span.2) (set_even c w)) /\
  setOddRowColor c w = Ok tt (log (DataChanged span.1 span.2) (set_odd c w)).
Proof.
  intros V HV w c span. split.
  - apply setEvenRowColor_eq.
  - apply setOddRowColor_eq.
Qed.

(** X8: the text a [StringListDelegate] editor commits comes back
    unchanged when the editor is reopened on the stored list:
    [', '.join(text.split(', ')) == text] for every text. *)
Theorem StringListDelegate_text_round_trip :
  forall (editor_text text : string),
  StringListDelegate_setEditorData editor_text
    (Some (StringListDelegate_setModelData text)) = text.
Proof.
  intros editor_text text. cbn. apply join_split_comma_space.
Qed.

(** X9: a non-empty list whose items contain no [", "] survives a
    [StringListDelegate] edit that keeps the editor text as shown; the
    empty list comes back as [[""]]. *)
Theorem StringListDelegate_list_round_trip :
  forall (editor_text : string) (l : list string),
  Forall (fun x => has_comma_space x = false) l ->
  StringListDelegate_setModelData
    (StringListDelegate_setEditorData editor_text (Some l)) =
  match l with [] => [""] | _ => l end.
Proof.
  intros editor_text l Hl. cbn. destruct l as [|x l]; [reflexivity|].
  by apply split_join_comma_space.
Qed.


(** X13: [Vec3Delegate] and [Vec4Delegate] commit the [QDoubleSpinBox]
    values formatted as floats but read them back with [int]: once a
    committed component's text contains a ["."], reopening the editor
    raises [ValueError]. *)
Theorem Vec3_Vec4_float_text_rejected :
  forall (F : Type) (spin_of_int : Z -> exn + F) (py_format : F -> string) (xs : list F),
  Exists (fun x => has_char "."%char (py_format x) = true) xs ->
  Vec3Delegate_setEditorData spin_of_int (vec_setModelData_text py_format xs) = inl ValueError /\
  Vec4Delegate_setEditorData spin_of_int (vec_setModelData_text py_format xs) = inl ValueError.
Proof.
  intros F spin_of_int py_format xs Hx. split.
  - unfold Vec3Delegate_setEditorData. by rewrite vec_parse_int_dot.
  - unfold Vec4Delegate_setEditorData. by rewrite vec_parse_int_dot.
Qed.

(** Witnesses. *)

Lemma even_color_action_undo_redo_witness :
  w_process.(stack_index) <= length w_process.(command_list) /\
  (MainWindow_setEvenRowColor None w_process = Ok tt w_process /\
   exists w1 w2 w3,
    MainWindow_setEvenRowColor (Some "#ffffff") w_process = Ok tt w1 /\
    undo w1 = Ok tt w2 /\ redo w2 = Ok tt w3 /\
    w1.(even_row_color) = "#ffffff" /\ w2.(even_row_color) = w_process.(even_row_color) /\
    w3.(even_row_color) = "#ffffff" /\
    w1.(command_list) = (take w_process.(stack_index) w_process.(command_list)
                         ++ [SetRowColorCommand "even" w_process.(even_row_color) "#ffffff"]) /\
    w2.(command_list) = w1.(command_list) /\ w3.(command_list) = w1.(command_list) /\
    w1.(stack_index) = S w_process.(stack_index) /\ w2.(stack_index) = w_process.(stack_index) /\
    w3.(stack_index) = S w_process.(stack_index) /\
    Forall (fun w' => w'.(properties) = w_process.(properties) /\
                      w'.(odd_row_color) = w_process.(odd_row_color) /\
                      w'.(background) = w_process.(background)) [w1; w2; w3]).
Proof.
  split; [cbn; lia|]. apply (even_color_action_undo_redo string w_process "#ffffff").
  cbn; lia.
Defined.

Lemma odd_color_action_undo_redo_witness :
  w_process.(stack_index) <= length w_process.(command_list) /\
  (MainWindow_setOddRowColor None w_process = Ok tt w_process /\
   exists w1 w2 w3,
    MainWindow_setOddRowColor (Some "#ffffff") w_process = Ok tt w1 /\
    undo w1 = Ok tt w2 /\ redo w2 = Ok tt w3 /\
    w1.(odd_row_color) = "#ffffff" /\ w2.(odd_row_color) = w_process.(odd_row_color) /\
    w3.(odd_row_color) = "#ffffff" /\
    w1.(command_list) = (take w_process.(stack_index) w_process.(command_list)
                         ++ [SetRowColorCommand "odd" w_process.(odd_row_color) "#ffffff"]) /\
    w2.(command_list) = w1.(command_list) /\ w3.(command_list) = w1.(command_list) /\
    w1.(stack_index) = S w_process.(stack_index) /\ w2.(stack_index) = w_process.(stack_index) /\
    w3.(stack_index) = S w_process.(stack_index) /\
    Forall (fun w' => w'.(properties) = w_process.(properties) /\
                      w'.(even_row_color) = w_process.(even_row_color) /\
                      w'.(background) = w_process.(background)) [w1; w2; w3]).
Proof.
  split; [cbn; lia|]. apply (odd_color_action_undo_redo string w_process "#ffffff").
  cbn; lia.
Defined.

Lemma background_action_undo_redo_witness :
  w_process.(stack_index) <= length w_process.(command_list) /\
  (MainWindow_setBackgroundColor None w_process = Ok tt w_process /\
   exists w1 w2 w3,
    MainWindow_setBackgroundColor (Some "#ffffff") w_process = Ok tt w1 /\
    undo w1 = Ok tt w2 /\ redo w2 = Ok tt w3 /\
    w1.(background) = "#ffffff" /\ w2.(background) = w_process.(background) /\
    w3.(background) = "#ffffff" /\
    w1.(command_list) = (take w_process.(stack_index) w_process.(command_list)
                         ++ [SetBackgroundColorCommand w_process.(background) "#ffffff"]) /\
    w2.(command_list) = w1.(command_list) /\ w3.(command_list) = w1.(command_list) /\
    w1.(stack_index) = S w_process.(stack_index) /\ w2.(stack_index) = w_process.(stack_index) /\
    w3.(stack_index) = S w_process.(stack_index) /\
    Forall (fun w' => w'.(properties) = w_process.(properties) /\
                      w'.(even_row_color) = w_process.(even_row_color) /\
                      w'.(odd_row_color) = w_process.(odd_row_color) /\
                      w'.(events) = w_process.(events)) [w1; w2; w3]).
Proof.
  split; [cbn; lia|]. apply (background_action_undo_redo string w_process "#ffffff").
  cbn; lia.
Defined.

Lemma row_background_after_even_color_witness :
  MainWindow_setEvenRowColor (Some "#ffffff") w_sample =
    Ok tt (result_world (MainWindow_setEvenRowColor (Some "#ffffff") w_sample)) /\
  w_sample.(properties) !! 2 = Some (mkItem "Cursor" "ArrowCursor" "cursor") /\
  data_background (Idx 2 1) (result_world (MainWindow_setEvenRowColor (Some "#ffffff") w_sample)) =
  Ok (BgRowColor "#ffffff") (result_world (MainWindow_setEvenRowColor (Some "#ffffff") w_sample)).
Proof.
  split; [vm_compute; reflexivity|]. split; [reflexivity|].
  apply (row_background_after_even_color string w_sample
           (result_world (MainWindow_setEvenRowColor (Some "#ffffff") w_sample))
           "#ffffff" 2 1 (mkItem "Cursor" "ArrowCursor" "cursor")).
  - vm_compute. reflexivity.
  - reflexivity.
Defined.

Lemma ColorDelegate_same_color_noop_witness :
  w_sample.(properties) !! 1 = Some (mkItem "Color" "#ff0000" "color") /\
  ColorDelegate_setModelData "#ff0000" (Idx 1 1) w_sample = Ok tt w_sample.
Proof.
  split; [reflexivity|].
  apply (ColorDelegate_same_color_noop w_sample 1 (mkItem "Color" "#ff0000" "color")).
  - reflexivity.
  - reflexivity.
Defined.

Lemma ColorDelegate_new_color_witness :
  let it := mkItem "Color" "#ff0000" "color" in
  w_sample.(is_undo_redo) = false /\ w_sample.(properties) !! 1 = Some it /\
  value it <> "#00ff00" /\
  ColorDelegate_setModelData "#00ff00" (Idx 1 1) w_sample =
  Ok tt
    (log (DataChanged (Idx 1 1) (Idx 1 1))
      (set_stack (take w_sample.(stack_index) w_sample.(command_list)
                  ++ [PropertyChangeCommand (Idx 1 1) (value it) "#00ff00"])
         (S w_sample.(stack_index))
         (log (AfterDataChanged (Idx 1 1) (value it) "#00ff00")
            (log (DataChanged (Idx 1 1) (Idx 1 1))
               (set_properties (<[1 := upd_value it "#00ff00"]> w_sample.(properties)) w_sample))))).
Proof.
  intros it. split; [reflexivity|]. split; [reflexivity|]. split; [discriminate|].
  apply (ColorDelegate_new_color w_sample 1 it "#00ff00").
  - reflexivity.
  - reflexivity.
  - discriminate.
Defined.

Lemma StringListDelegate_list_round_trip_witness :
  Forall (fun x => has_comma_space x = false) ["a"; "b,c"] /\
  StringListDelegate_setModelData
    (StringListDelegate_setEditorData "" (Some ["a"; "b,c"])) = ["a"; "b,c"].
Proof.
  split; [repeat constructor|].
  apply (StringListDelegate_list_round_trip "" ["a"; "b,c"]).
  repeat constructor.
Defined.

Lemma Vec3_Vec4_float_text_rejected_witness :
  Exists (fun x => has_char "."%char (id x) = true) ["1.0"; "2.0"; "3.0"] /\
  Vec3Delegate_setEditorData (fun z => inr (py_str_int z)) (vec_setModelData_text id ["1.0"; "2.0"; "3.0"]) = inl ValueError /\
  Vec4Delegate_setEditorData (fun z => inr (py_str_int z)) (vec_setModelData_text id ["1.0"; "2.0"; "3.0"]) = inl ValueError.
Proof.
  split; [constructor; reflexivity|].
  apply (Vec3_Vec4_float_text_rejected string (fun z => inr (py_str_int z)) id ["1.0"; "2.0"; "3.0"]).
  constructor; reflexivity.
Defined.

Lemma setFilter_row_delegates_witness :
  let match_all := fun (_ _ : string) => true in
  visible_rows match_all "" w_sample.(properties) !! 1 = Some 1 /\
  (snd (setFilter match_all "" (w_sample, mkView "" ∅))).(row_delegates) !! 1 =
  Some (delegate_for (option_map type (w_sample.(properties) !! 1))).
Proof.
  intros match_all. split; [reflexivity|].
  apply (setFilter_row_delegates string match_all "" w_sample (mkView "" ∅) 1 1).
  reflexivity.
Defined.

